(** * The transport layer of the asana-go client

    A shallow embedding of [Client.getURL], [mergeQuery], [Client.get],
    [Client.post], [Client.put], [Client.do], [Client.postMultipart],
    [Client.parseResponse], [Client.parseResponseData],
    [Workspace.Projects] and [Workspace.AllProjects], with the parts of the
    Go libraries they call ([encoding/json], [net/url], [net/http],
    [mime/multipart], [go-querystring], [mergo]) written out as far as these
    functions use them.

    Conventions.
    - A Go [string] or [[]byte] is a [string] of bytes; a Go [int] is an
      integer (no arithmetic is done on it).
    - A Go pointer to an [Options] is an [option] of an address into the
      heap of the [World]; [None] is the [nil] pointer.
    - A Go [error] result is an [option Error]; [None] is [nil].  A function
      that returns a value and an error returns the pair.
    - A destination [result interface{}] is an [option]: [None] for the
      [nil] interface, [Some x] for a pointer to a variable that holds [x].
      A call returns the destination as it is after the call.
    - Everything else a call does to the outside (requests handed to the
      HTTP client, stores through pointers to [Options], [Close] calls on
      streams) is recorded in the [World] that the call takes and returns.
    - A [for] loop without a bound takes a number of rounds it may run.
    - [log.Printf] diagnostics guarded by [c.Debug] only write to the process
      log, and the body of a response is given by what reading it yields;
      neither the log nor the closing of response bodies is part of the
      [World]. *)

From Stdlib Require Import ZArith Ascii String List Bool Lia.
From stdpp Require Import base option list gmap strings sorting pretty.

Local Open Scope string_scope.
Local Open Scope Z_scope.

(** ** Errors *)

(** Modelled from the spec: one entry of the envelope's [errors] list (the
    struct [Error] of the repository is declared outside the files at hand);
    the spec's examples give it a [message]. *)
Record ErrorEntry := { Message : string }.

(** The error values the transport can return.  [errors.New] and
    [fmt.Errorf] give an [ErrorString], [errors.Wrap] a [Wrapped] cause. *)
Inductive Error :=
| SyntaxError
| UnmarshalTypeError (value : string)
| InvalidUnmarshalError
| ErrorString (msg : string)
| Wrapped (cause : Error) (msg : string)
| APIError (StatusCode : Z) (Errors : list (option ErrorEntry)).

Definition errors_New (msg : string) : Error := ErrorString msg.
Definition errors_Wrap (err : Error) (msg : string) : Error := Wrapped err msg.

(** The first error of a decode is the one [json.Unmarshal] reports. *)
Definition saveError (saved new : option Error) : option Error :=
  match saved with
  | Some _ => saved
  | None => new
  end.

(** ** JSON values and the reader of [encoding/json] *)

#[warnings="-register-all"]
Inductive json :=
| JNull
| JBool (b : bool)
| JNumber (literal : string)
| JString (s : string)
| JArray (elems : list json)
| JObject (members : list (string * json)).

Module Json.

Definition is_space (c : ascii) : bool :=
  match c with
  | " "%char | "009"%char | "010"%char | "013"%char => true
  | _ => false
  end.

Fixpoint skip_space (s : string) : string :=
  match s with
  | String c r => if is_space c then skip_space r else s
  | EmptyString => s
  end.

Definition is_digit (c : ascii) : bool :=
  let n := nat_of_ascii c in (48 <=? n)%nat && (n <=? 57)%nat.

Definition hex_digit (c : ascii) : option N :=
  let n := N_of_ascii c in
  if (48 <=? n)%N && (n <=? 57)%N then Some (n - 48)%N
  else if (65 <=? n)%N && (n <=? 70)%N then Some (n - 55)%N
  else if (97 <=? n)%N && (n <=? 102)%N then Some (n - 87)%N
  else None.

Definition hex4 (a b c d : ascii) : option N :=
  match hex_digit a, hex_digit b, hex_digit c, hex_digit d with
  | Some x, Some y, Some z, Some w => Some (((x * 16 + y) * 16 + z) * 16 + w)%N
  | _, _, _, _ => None
  end.

Definition byte (n : N) : string := String (ascii_of_N n) EmptyString.

(** UTF-8 encoding of a code point. *)
Definition utf8 (r : N) : string :=
  if (r <? 128)%N then byte r
  else if (r <? 2048)%N then
    byte (192 + r / 64) ++ byte (128 + r mod 64)
  else if (r <? 65536)%N then
    byte (224 + r / 4096) ++ byte (128 + (r / 64) mod 64) ++ byte (128 + r mod 64)
  else
    byte (240 + r / 262144) ++ byte (128 + (r / 4096) mod 64)
    ++ byte (128 + (r / 64) mod 64) ++ byte (128 + r mod 64).

Definition is_high_surrogate (r : N) : bool := (55296 <=? r)%N && (r <? 56320)%N.
Definition is_low_surrogate (r : N) : bool := (56320 <=? r)%N && (r <? 57344)%N.

(** The text of a string literal after its opening quote: the decoded
    string and what follows the closing quote.  A surrogate without its
    partner becomes U+FFFD, as in [encoding/json]. *)
Fixpoint string_literal (s : string) : option (string * string) :=
  match s with
  | EmptyString => None
  | String "034"%char r => Some (EmptyString, r)
  | String "\"%char (String e r) =>
      let simple (c : ascii) :=
        match string_literal r with
        | Some (t, r') => Some (String c t, r')
        | None => None
        end in
      match e with
      | "034"%char | "\"%char | "/"%char => simple e
      | "b"%char => simple "008"%char
      | "f"%char => simple "012"%char
      | "n"%char => simple "010"%char
      | "r"%char => simple "013"%char
      | "t"%char => simple "009"%char
      | "u"%char =>
          match r with
          | String a (String b (String c (String d r1))) =>
              match hex4 a b c d with
              | None => None
              | Some hi =>
                  let single (cp : N) :=
                    match string_literal r1 with
                    | Some (t, r') => Some (utf8 cp ++ t, r')
                    | None => None
                    end in
                  if is_high_surrogate hi then
                    match r1 with
                    | String "\"%char (String "u"%char
                        (String a' (String b' (String c' (String d' r2))))) =>
                        match hex4 a' b' c' d' with
                        | Some lo =>
                            if is_low_surrogate lo then
                              match string_literal r2 with
                              | Some (t, r') =>
                                  Some (utf8 (65536 + (hi - 55296) * 1024 + (lo - 56320))%N ++ t, r')
                              | None => None
                              end
                            else single 65533%N
                        | None => None
                        end
                    | _ => single 65533%N
                    end
                  else if is_low_surrogate hi then single 65533%N
                  else single hi
              end
          | _ => None
          end
      | _ => None
      end
  | String c r =>
      if (nat_of_ascii c <? 32)%nat then None
      else match string_literal r with
           | Some (t, r') => Some (String c t, r')
           | None => None
           end
  end.

Fixpoint digits (s : string) : string * string :=
  match s with
  | String c r =>
      if is_digit c then let '(d, r') := digits r in (String c d, r') else (EmptyString, s)
  | EmptyString => (EmptyString, s)
  end.

(** A number literal: an optional minus sign, an integer part without a
    leading zero, an optional fraction and an optional exponent. *)
Definition number_literal (s : string) : option (string * string) :=
  let '(sign, s1) :=
    match s with
    | String "-"%char r => ("-", r)
    | _ => (EmptyString, s)
    end in
  let '(int, s2) := digits s1 in
  match int with
  | EmptyString => None
  | String "0"%char (String _ _) => None
  | _ =>
      let frac :=
        match s2 with
        | String "."%char r =>
            let '(d, r') := digits r in
            match d with
            | EmptyString => None
            | _ => Some ("." ++ d, r')
            end
        | _ => Some (EmptyString, s2)
        end in
      match frac with
      | None => None
      | Some (fr, s3) =>
          match s3 with
          | String e r =>
              if Ascii.eqb e "e" || Ascii.eqb e "E" then
                let '(esign, r1) :=
                  match r with
                  | String "+"%char r' => ("+", r')
                  | String "-"%char r' => ("-", r')
                  | _ => (EmptyString, r)
                  end in
                let '(d, r2) := digits r1 in
                match d with
                | EmptyString => None
                | _ => Some (sign ++ int ++ fr ++ String e esign ++ d, r2)
                end
              else Some (sign ++ int ++ fr, s3)
          | EmptyString => Some (sign ++ int ++ fr, s3)
          end
      end
  end.

Definition keyword (kw : string) (v : json) (s : string) : option (json * string) :=
  if String.prefix kw s
  then Some (v, substring (String.length kw) (String.length s - String.length kw) s)
  else None.

(** One value, then what follows it.  [fuel] bounds the nesting and the
    number of elements; [parse] gives enough of it for the whole text. *)
Fixpoint value (fuel : nat) (s : string) : option (json * string) :=
  match fuel with
  | O => None
  | S fuel =>
      match skip_space s with
      | String "n"%char _ as t => keyword "null" JNull t
      | String "t"%char _ as t => keyword "true" (JBool true) t
      | String "f"%char _ as t => keyword "false" (JBool false) t
      | String "034"%char r =>
          match string_literal r with
          | Some (str, r') => Some (JString str, r')
          | None => None
          end
      | String "["%char r =>
          match skip_space r with
          | String "]"%char r' => Some (JArray [], r')
          | _ =>
              match elements fuel r with
              | Some (vs, r') => Some (JArray vs, r')
              | None => None
              end
          end
      | String "{"%char r =>
          match skip_space r with
          | String "}"%char r' => Some (JObject [], r')
          | _ =>
              match members fuel r with
              | Some (kvs, r') => Some (JObject kvs, r')
              | None => None
              end
          end
      | t =>
          match number_literal t with
          | Some (n, r) => Some (JNumber n, r)
          | None => None
          end
      end
  end
with elements (fuel : nat) (s : string) : option (list json * string) :=
  match fuel with
  | O => None
  | S fuel =>
      match value fuel s with
      | Some (v, r) =>
          match skip_space r with
          | String ","%char r' =>
              match elements fuel r' with
              | Some (vs, r'') => Some (v :: vs, r'')
              | None => None
              end
          | String "]"%char r' => Some ([v], r')
          | _ => None
          end
      | None => None
      end
  end
with members (fuel : nat) (s : string) : option (list (string * json) * string) :=
  match fuel with
  | O => None
  | S fuel =>
      match skip_space s with
      | String "034"%char r =>
          match string_literal r with
          | Some (k, r1) =>
              match skip_space r1 with
              | String ":"%char r2 =>
                  match value fuel r2 with
                  | Some (v, r3) =>
                      match skip_space r3 with
                      | String ","%char r4 =>
                          match members fuel r4 with
                          | Some (kvs, r5) => Some ((k, v) :: kvs, r5)
                          | None => None
                          end
                      | String "}"%char r4 => Some ([(k, v)], r4)
                      | _ => None
                      end
                  | None => None
                  end
              | _ => None
              end
          | None => None
          end
      | _ => None
      end
  end.

(** [checkValid] and the scan of the whole text: one value with nothing
    but white space after it. *)
Definition parse (text : string) : option json :=
  match value (2 * String.length text + 2) text with
  | Some (v, r) =>
      match skip_space r with
      | EmptyString => Some v
      | _ => None
      end
  | None => None
  end.

End Json.

(** ** [net/url]: query mappings *)

(** [url.Values], a map from a key to the list of its values. *)
Abbreviation Values := (gmap string (list string)).

(** [v.Del(key)]. *)
Definition Values_Del (v : Values) (key : string) : Values := delete key v.

(** [v.Add(key, value)]: [v[key] = append(v[key], value)]. *)
Definition Values_Add (v : Values) (key value : string) : Values :=
  <[key := (default [] (v !! key) ++ [value])%list]> v.

Module Url.

Definition upperhex (n : N) : ascii :=
  if (n <? 10)%N then ascii_of_N (48 + n) else ascii_of_N (55 + n).

(** [shouldEscape(c, encodeQueryComponent)]: letters, digits and
    [-_.~] pass. *)
Definition shouldEscape (c : ascii) : bool :=
  let n := N_of_ascii c in
  negb (((97 <=? n)%N && (n <=? 122)%N) || ((65 <=? n)%N && (n <=? 90)%N)
        || ((48 <=? n)%N && (n <=? 57)%N)
        || (n =? 45)%N || (n =? 95)%N || (n =? 46)%N || (n =? 126)%N).

Fixpoint QueryEscape (s : string) : string :=
  match s with
  | EmptyString => EmptyString
  | String c r =>
      if Ascii.eqb c " " then String "+" (QueryEscape r)
      else if shouldEscape c then
        String "%" (String (upperhex (N_of_ascii c / 16))
                      (String (upperhex (N_of_ascii c mod 16)) (QueryEscape r)))
      else String c (QueryEscape r)
  end.

Definition join_amp (parts : list string) : string :=
  match parts with
  | [] => EmptyString
  | p :: ps => fold_left (fun acc x => acc ++ "&" ++ x) ps p
  end.

(** [v.Encode()]: the pairs [key=value], keys in byte order, joined by
    [&]. *)
Definition Encode (v : Values) : string :=
  let keys := merge_sort (fun a b => Is_true (String.leb a b)) (map fst (map_to_list v)) in
  join_amp
    (flat_map (fun k => map (fun x => QueryEscape k ++ "=" ++ QueryEscape x)
                             (default [] (v !! k))) keys).

End Url.

(** ** The data of the client *)

(** Modelled from the spec: the struct [Options] is declared outside the
    files at hand.  The spec lists a page size, an opaque offset token and a
    field selector list; [AllProjects] names the first two [Limit] and
    [Offset].  A field that holds its zero value is an unset field. *)
Record Options := {
  Limit : Z;
  Offset : string;
  Fields : list string
}.

Definition Options_zero : Options := {| Limit := 0; Offset := EmptyString; Fields := [] |}.

#[global] Instance Options_eq_dec : EqDecision Options.
Proof. solve_decision. Defined.

Record NextPage := {
  NP_Offset : string;
  NP_Path : string;
  NP_URI : string
}.

Definition NextPage_zero : NextPage := {| NP_Offset := EmptyString; NP_Path := EmptyString; NP_URI := EmptyString |}.

(** An API response.  [Data] is a [json.RawMessage]: [None] is the [nil]
    slice, [Some j] the bytes of the JSON value [j]. *)
Record Response := {
  Data : option json;
  Resp_NextPage : option NextPage;
  Resp_Errors : list (option ErrorEntry)
}.

Definition Response_zero : Response :=
  {| Data := None; Resp_NextPage := None; Resp_Errors := [] |}.

(** The body of an outgoing request.  [JSONBody data options] stands for
    the text [json.Marshal] makes of [request{Data, Options}]. *)
Inductive RequestBody :=
| NoBody
| JSONBody (data : json) (options : Options)
| StreamBody (bytes : string).

Record Request := {
  Method : string;
  URL : string;
  Header : list (string * string);
  Body : RequestBody
}.

(** What [HTTPClient.Do] hands back: the status and what [ioutil.ReadAll]
    gets out of the body. *)
Record HttpResponse := {
  StatusCode : Z;
  Status : string;
  ReadAll : string * option Error
}.

(** An [io.ReadCloser]: a handle and the bytes it yields. *)
Record ReadCloser := {
  handle : nat;
  content : string
}.

(** The state outside a call: the [Options] values that pointers refer to,
    the requests handed to the HTTP client so far (oldest first) and the
    handles [Close] was called on (oldest first). *)
Record World := {
  heap : list Options;
  sent : list Request;
  closed : list nat
}.

(** The HTTP client answers a request knowing the requests before it. *)
Record Client := {
  BaseURL : string;
  HTTPClient : list Request -> Request -> HttpResponse + Error;
  Debug : bool;
  FastAPI : bool;
  DefaultOptions : Options
}.

(** ** Calls that may panic, over the world *)

Inductive outcome (A : Type) :=
| Returns (a : A)
| Panics (msg : string).
Arguments Returns {A} a.
Arguments Panics {A} msg.

Definition Go (A : Type) : Type := World -> World * outcome A.

#[global] Instance Go_ret : MRet Go := fun A a w => (w, Returns a).
#[global] Instance Go_bind : MBind Go := fun A B f m w =>
  match m w with
  | (w', Returns a) => f a w'
  | (w', Panics msg) => (w', Panics msg)
  end.

Definition panic {A} (msg : string) : Go A := fun w => (w, Panics msg).

(** [defer f()]: [f] runs when the body is left, by return or by panic. *)
Definition defer {A} (f : World -> World) (body : Go A) : Go A := fun w =>
  let '(w', o) := body w in (f w', o).

(** [*p] for a pointer into the heap. *)
Definition load (w : World) (p : nat) : Options := default Options_zero (heap w !! p).

Definition deref (p : nat) : Go Options := fun w => (w, Returns (load w p)).

(** [*p = o]. *)
Definition store (p : nat) (o : Options) : Go unit := fun w =>
  ({| heap := <[p := o]> (heap w); sent := sent w; closed := closed w |}, Returns tt).

(** [&Options{...}]: a new cell at the end of the heap. *)
Definition new (o : Options) : Go nat := fun w =>
  ({| heap := (heap w ++ [o])%list; sent := sent w; closed := closed w |}, Returns (length (heap w))).

(** [r.Close()]. *)
Definition Close (r : ReadCloser) (w : World) : World :=
  {| heap := heap w; sent := sent w; closed := (closed w ++ [handle r])%list |}.

(** [c.HTTPClient.Do(request)]. *)
Definition Do (c : Client) (request : Request) : Go (HttpResponse + Error) := fun w =>
  ({| heap := heap w; sent := (sent w ++ [request])%list; closed := closed w |},
   Returns (HTTPClient c (sent w) request)).

(** ** [encoding/json]: decoding into Go values *)

Definition json_kind (j : json) : string :=
  match j with
  | JNull => "null"
  | JBool _ => "bool"
  | JNumber _ => "number"
  | JString _ => "string"
  | JArray _ => "array"
  | JObject _ => "object"
  end.

(** A Go type that [json.Unmarshal] can fill: its zero value and the
    decoding of one JSON value into a variable of the type.  The variable
    after the decoding is returned next to the error: a failed decoding may
    have written to it. *)
Class Unmarshal (T : Type) := {
  zero : T;
  decode : json -> T -> T * option Error
}.

Definition lower (c : ascii) : ascii :=
  let n := N_of_ascii c in
  if (65 <=? n)%N && (n <=? 90)%N then ascii_of_N (n + 32) else c.

Fixpoint lower_string (s : string) : string :=
  match s with
  | EmptyString => EmptyString
  | String c r => String (lower c) (lower_string r)
  end.

(** A key of an object selects a struct field by its name, letter case
    aside (the two non-ASCII letters that Go folds onto [k] and [s] are
    not considered). *)
Definition equalFold (key name : string) : bool :=
  String.eqb (lower_string key) (lower_string name).

(** Decoding an object into a struct: the members in order, each into the
    field its key selects; the first error is kept and decoding goes on. *)
Definition decode_struct {T} (field : string -> json -> T -> T * option Error)
    (j : json) (v : T) : T * option Error :=
  match j with
  | JNull => (v, None)
  | JObject members =>
      fold_left (fun (acc : T * option Error) (kv : string * json) =>
                   let '(v', e') := field (fst kv) (snd kv) (fst acc) in
                   (v', saveError (snd acc) e'))
                members (v, None)
  | _ => (v, Some (UnmarshalTypeError (json_kind j)))
  end.

#[global] Instance Unmarshal_string : Unmarshal string := {|
  zero := EmptyString;
  decode j v :=
    match j with
    | JNull => (v, None)
    | JString s => (s, None)
    | _ => (v, Some (UnmarshalTypeError (json_kind j)))
    end
|}.

(** A pointer: [null] makes it [nil]; another value is decoded into the
    pointee, which is allocated when the pointer is [nil]. *)
#[global] Instance Unmarshal_pointer {T} `{Unmarshal T} : Unmarshal (option T) := {|
  zero := None;
  decode j v :=
    match j with
    | JNull => (None, None)
    | _ => let '(x, e) := decode j (default zero v) in (Some x, e)
    end
|}.

(** A slice: [null] makes it [nil]; an array replaces its elements, each
    decoded into a zero element. *)
#[global] Instance Unmarshal_slice {T} `{Unmarshal T} : Unmarshal (list T) := {|
  zero := [];
  decode j v :=
    match j with
    | JNull => ([], None)
    | JArray elems =>
        fold_left (fun (acc : list T * option Error) (x : json) =>
                     let '(y, e) := decode x zero in
                     ((fst acc ++ [y])%list, saveError (snd acc) e))
                  elems ([], None)
    | _ => (v, Some (UnmarshalTypeError (json_kind j)))
    end
|}.

#[global] Instance Unmarshal_ErrorEntry : Unmarshal ErrorEntry := {|
  zero := {| Message := EmptyString |};
  decode := decode_struct (fun key x v =>
    if equalFold key "message" then
      let '(m, e) := decode x (Message v) in ({| Message := m |}, e)
    else (v, None))
|}.

#[global] Instance Unmarshal_NextPage : Unmarshal NextPage := {|
  zero := NextPage_zero;
  decode := decode_struct (fun key x v =>
    if equalFold key "offset" then
      let '(s, e) := decode x (NP_Offset v) in
      ({| NP_Offset := s; NP_Path := NP_Path v; NP_URI := NP_URI v |}, e)
    else if equalFold key "path" then
      let '(s, e) := decode x (NP_Path v) in
      ({| NP_Offset := NP_Offset v; NP_Path := s; NP_URI := NP_URI v |}, e)
    else if equalFold key "uri" then
      let '(s, e) := decode x (NP_URI v) in
      ({| NP_Offset := NP_Offset v; NP_Path := NP_Path v; NP_URI := s |}, e)
    else (v, None))
|}.

(** The envelope.  [Data] is a [json.RawMessage], which takes the bytes of
    whatever value the member has, the literal [null] included. *)
#[global] Instance Unmarshal_Response : Unmarshal Response := {|
  zero := Response_zero;
  decode := decode_struct (fun key x v =>
    if equalFold key "data" then
      ({| Data := Some x; Resp_NextPage := Resp_NextPage v; Resp_Errors := Resp_Errors v |}, None)
    else if equalFold key "next_page" then
      let '(np, e) := decode x (Resp_NextPage v) in
      ({| Data := Data v; Resp_NextPage := np; Resp_Errors := Resp_Errors v |}, e)
    else if equalFold key "errors" then
      let '(es, e) := decode x (Resp_Errors v) in
      ({| Data := Data v; Resp_NextPage := Resp_NextPage v; Resp_Errors := es |}, e)
    else (v, None))
|}.

(** [json.Unmarshal(data, &x)] for [data] that scans to [text] ([None]
    when it is not valid JSON): the variable [x] after the call, and the
    error. *)
Definition json_Unmarshal_into {T} `{Unmarshal T} (text : option json) (x : T)
    : T * option Error :=
  match text with
  | None => (x, Some SyntaxError)
  | Some j => decode j x
  end.

(** [json.Unmarshal(data, v)] for [v interface{}] that is [nil] ([None]) or
    a pointer to a variable.  The syntax is checked before [v] is looked
    at. *)
Definition json_Unmarshal {T} `{Unmarshal T} (text : option json) (v : option T)
    : option T * option Error :=
  match text, v with
  | None, _ => (v, Some SyntaxError)
  | Some _, None => (None, Some InvalidUnmarshalError)
  | Some _, Some x => let '(x', e) := json_Unmarshal_into text x in (Some x', e)
  end.

(** The part of [Project] that the listing below reads. *)
Record Project := {
  ID : string;
  Name : string
}.

#[global] Instance Unmarshal_Project : Unmarshal Project := {|
  zero := {| ID := EmptyString; Name := EmptyString |};
  decode := decode_struct (fun key x v =>
    if equalFold key "gid" then
      let '(s, e) := decode x (ID v) in ({| ID := s; Name := Name v |}, e)
    else if equalFold key "name" then
      let '(s, e) := decode x (Name v) in ({| ID := ID v; Name := s |}, e)
    else (v, None))
|}.

(** ** [go-querystring] and [mergo] on the client's types *)

(** What [query.Values] makes of a value: the parameters and an error. *)
Class QueryEncoder (T : Type) := query_Values : T -> Values * option Error.
#[global] Arguments query_Values : simpl never.

Definition join_comma (parts : list string) : string :=
  match parts with
  | [] => EmptyString
  | p :: ps => fold_left (fun acc x => acc ++ "," ++ x) ps p
  end.

(** Modelled from the spec: the [url] tags of [Options], declared with the
    struct outside the files at hand.  Each field that is set gives one
    parameter, an unset field gives none. *)
#[global] Instance QueryEncoder_Options : QueryEncoder Options := fun o =>
  let q0 : Values := ∅ in
  let q1 := if decide (Limit o = 0) then q0 else Values_Add q0 "limit" (pretty (Limit o)) in
  let q2 := if decide (Offset o = EmptyString) then q1 else Values_Add q1 "offset" (Offset o) in
  let q3 := if decide (Fields o = []) then q2 else Values_Add q2 "opt_fields" (join_comma (Fields o)) in
  (q3, None).
#[global] Arguments QueryEncoder_Options : simpl never.

(** A pointer: [query.Values] follows it, and gives no parameters for
    [nil]. *)
#[global] Instance QueryEncoder_pointer {T} `{QueryEncoder T} : QueryEncoder (option T) := fun p =>
  match p with
  | None => (∅, None)
  | Some x => query_Values x
  end.

(** [mergo.Merge(dst, src)] on two [Options]: every field of [dst] that
    holds its zero value takes the field of [src].  Both are of one struct
    type, for which [mergo] reports no error. *)
Definition mergo_Merge_fields (dst src : Options) : Options :=
  {| Limit := if decide (Limit dst = 0) then Limit src else Limit dst;
     Offset := if decide (Offset dst = EmptyString) then Offset src else Offset dst;
     Fields := if decide (Fields dst = []) then Fields src else Fields dst |}.

Definition mergo_Merge (dst : nat) (src : Options) : Go (option Error) :=
  old ← deref dst;
  _ ← store dst (mergo_Merge_fields old src);
  mret None.

(** ** Payloads *)

(** What a value passed as [data interface{}] offers: the [Validate]
    method when its type implements [Validator], its query parameters, and
    its JSON text (as the value it denotes) or the error of [json.Marshal]. *)
Class Payload (T : Type) := {
  Validate : option (T -> option Error);
  Payload_query :: QueryEncoder T;
  json_Marshal : T -> json + Error
}.

(** The [nil] interface holds no value of any type. *)
#[global] Instance Payload_nil : Payload Empty_set := {|
  Validate := None;
  Payload_query := fun x : Empty_set => match x with end;
  json_Marshal := fun x : Empty_set => match x with end
|}.

(** [if validator, ok := data.(Validator); ok { err = validator.Validate() }]:
    [None] also when [data] is [nil] or has no [Validate] method. *)
Definition validate {T} `{Payload T} (data : option T) : option Error :=
  match data, Validate with
  | Some x, Some check => check x
  | _, _ => None
  end.

(** A Go slice, [nil] or not, and the elements a [range] over it visits. *)
Definition slice (A : Type) : Type := option (list A).
Definition range {A} (s : slice A) : list A := default [] s.

(** ** [net/http]: building a request *)

Module Http.

Definition is_ctl (c : ascii) : bool :=
  let n := nat_of_ascii c in (n <? 32)%nat || (n =? 127)%nat.

Fixpoint has_ctl (s : string) : bool :=
  match s with
  | EmptyString => false
  | String c r => is_ctl c || has_ctl r
  end.

Definition ishex (c : ascii) : bool :=
  match Json.hex_digit c with Some _ => true | None => false end.

Fixpoint escapes_ok (s : string) : bool :=
  match s with
  | EmptyString => true
  | String "%"%char (String a (String b r)) => ishex a && ishex b && escapes_ok r
  | String "%"%char _ => false
  | String _ r => escapes_ok r
  end.

(** [strings.Cut(s, sep)] for a one-byte separator. *)
Fixpoint cut (sep : ascii) (s : string) : string * string :=
  match s with
  | EmptyString => (EmptyString, EmptyString)
  | String c r =>
      if Ascii.eqb c sep then (EmptyString, r)
      else let '(a, b) := cut sep r in (String c a, b)
  end.

(** What [url.Parse] asks of the text after a well-formed base URL: no
    control byte, and well-formed percent escapes in the path and in the
    fragment (the query is taken as it is). *)
Definition parses (url : string) : bool :=
  let '(u, frag) := cut "#" url in
  let '(rest, _) := cut "?" u in
  negb (has_ctl url) && escapes_ok rest && escapes_ok frag.

(** The bytes of a token of RFC 7230. *)
Definition is_token (c : ascii) : bool :=
  let n := N_of_ascii c in
  ((97 <=? n)%N && (n <=? 122)%N) || ((65 <=? n)%N && (n <=? 90)%N)
  || ((48 <=? n)%N && (n <=? 57)%N)
  || match c with
     | "!"%char | "#"%char | "$"%char | "%"%char | "&"%char | "'"%char | "*"%char
     | "+"%char | "-"%char | "."%char | "^"%char | "_"%char | "`"%char | "|"%char
     | "~"%char => true
     | _ => false
     end.

Fixpoint all_token (s : string) : bool :=
  match s with
  | EmptyString => true
  | String c r => is_token c && all_token r
  end.

Definition validMethod (method : string) : bool :=
  negb (String.eqb method EmptyString) && all_token method.

(** [http.NewRequest(method, url, body)], for a base URL that [url.Parse]
    accepts.  An empty method stands for [GET]. *)
Definition NewRequest (method url : string) (body : RequestBody) : option Request * option Error :=
  let method := if String.eqb method EmptyString then "GET" else method in
  if negb (validMethod method) then (None, Some (ErrorString "net/http: invalid method"))
  else if parses url
  then (Some {| Method := method; URL := url; Header := []; Body := body |}, None)
  else (None, Some (ErrorString "parse: invalid URL")).

(** [request.Header.Add(key, value)]. *)
Definition Header_Add (request : Request) (key value : string) : Request :=
  {| Method := Method request; URL := URL request;
     Header := (Header request ++ [(key, value)])%list; Body := Body request |}.

End Http.

(** ** The client *)

(** [c.getURL(path)].  [path[0]] on the empty string is the run-time panic
    of an index out of range. *)
Definition getURL (c : Client) (path : string) : outcome string :=
  match path with
  | EmptyString => Panics "runtime error: index out of range [0] with length 0"
  | String c0 _ =>
      if Ascii.eqb c0 "/" then Returns (BaseURL c ++ path)
      else Panics "Invalid API path"
  end.

(** [getURL] inside a call. *)
Definition getURL_call (c : Client) (path : string) : Go string := fun w => (w, getURL c path).

(** One round of the loop of [mergeQuery]: [q.Del(key)], then [q.Add] for
    each value. *)
Definition mergeQuery_entry (q : Values) (entry : string * list string) : Values :=
  fold_left (fun q value => Values_Add q (fst entry) value) (snd entry)
            (Values_Del q (fst entry)).

(** The loop over the entries of [queryParams], in the order the [range]
    yields them. *)
Definition mergeQuery_loop (entries : list (string * list string)) (q : Values) : Values :=
  fold_left mergeQuery_entry entries q.

(** [mergeQuery(q, request)]: the map [q] after the call, and the error. *)
Definition mergeQuery {T} `{QueryEncoder T} (q : Values) (request : T) : Values * option Error :=
  let '(queryParams, err) := query_Values request in
  match err with
  | Some e => (q, Some (errors_Wrap e "Unable to marshal request to query parameters"))
  | None => (mergeQuery_loop (map_to_list queryParams) q, None)
  end.

(** Modelled from the spec: [Response.Error], declared outside the files at
    hand, builds the API error from the envelope's [errors] list and the
    status of the response. *)
Definition Response_Error (value : Response) (resp : HttpResponse) : Error :=
  APIError (StatusCode resp) (Resp_Errors value).

(** The [switch] on the status: the cases [200] and [201] go on, every
    other status takes the [default] case. *)
Definition status_ok (status : Z) : bool :=
  match status with
  | 200 | 201 => true
  | _ => false
  end.

(** [c.parseResponseData(data, result)]: the destination after the call,
    and the error. *)
Definition parseResponseData {D} `{Unmarshal D} (c : Client) (data : json) (result : option D)
    : option D * option Error :=
  let '(result', err) := json_Unmarshal (Some data) result in
  match err with
  | Some e => (result', Some e)
  | None => (result', None)
  end.

(** [c.parseResponse(resp, result)]: the destination after the call, the
    envelope and the error. *)
Definition parseResponse {D} `{Unmarshal D} (c : Client) (resp : HttpResponse) (result : option D)
    : option D * (option Response * option Error) :=
  let '(body, err) := ReadAll resp in
  match err with
  | Some e => (result, (None, Some e))
  | None =>
      let '(value, err) := json_Unmarshal_into (Json.parse body) Response_zero in
      match err with
      | Some e => (result, (None, Some e))
      | None =>
          if status_ok (StatusCode resp) then
            match Data value with
            | None => (result, (None, Some (errors_New "Missing data from response")))
            | Some data =>
                let '(result', err) := parseResponseData c data result in
                (result', (Some value, err))
            end
          else (result, (None, Some (Response_Error value resp)))
      end
  end.

(** The [Options] behind the pointers of [opts]; a [nil] pointer stays
    [None]. *)
Definition deref_all (opts : list (option nat)) : Go (list (option Options)) := fun w =>
  (w, Returns (map (fmap (load w)) opts)).

(** The loop of [get] over [opts], the pointers read. *)
Fixpoint get_options (q : Values) (opts : list (option Options)) : Values * option Error :=
  match opts with
  | [] => (q, None)
  | options :: rest =>
      let '(q', err) := mergeQuery q options in
      match err with
      | Some e => (q', Some e)
      | None => get_options q' rest
      end
  end.

(** The first part of [get]: the query mapping [q] from the default
    options, the validated [data] and [opts]. *)
Definition get_query {T} `{Payload T} (c : Client) (data : option T)
    (opts : list (option Options)) : Values * option Error :=
  let '(q, err) := query_Values (DefaultOptions c) in
  match err with
  | Some e => (q, Some (errors_Wrap e "Unable to marshal DefaultOptions to query parameters"))
  | None =>
      let '(q, err) :=
        match data with
        | None => (q, None)
        | Some x =>
            match validate data with
            | Some e => (q, Some e)
            | None => mergeQuery q x
            end
        end in
      match err with
      | Some e => (q, Some e)
      | None => get_options q opts
      end
  end.

Definition fastAPI (c : Client) (request : Request) : Request :=
  if FastAPI c then Http.Header_Add request "Asana-Fast-Api" "true" else request.

(** [c.get(path, data, result, opts...)]: the destination after the call,
    the next page and the error. *)
Definition get {T D} `{Payload T} `{Unmarshal D} (c : Client) (path : string)
    (data : option T) (result : option D) (opts : slice (option nat))
    : Go (option D * (option NextPage * option Error)) :=
  opts ← deref_all (range opts);
  let '(q, err) := get_query c data opts in
  match err with
  | Some e => mret (result, (None, Some e))
  | None =>
      let path := if (0 <? size q)%nat then path ++ "?" ++ Url.Encode q else path in
      url ← getURL_call c path;
       match Http.NewRequest "GET" url NoBody with
       | (Some request, None) =>
           let request := fastAPI c request in
           resp ← Do c request;
           match resp with
           | inr e => mret (result, (None, Some (errors_Wrap e "GET error")))
           | inl resp =>
               let '(result', (resultData, err)) := parseResponse c resp result in
               match err with
               | Some e => mret (result', (None, Some e))
               | None =>
                   match resultData with
                   | Some value => mret (result', (Resp_NextPage value, None))
                   | None => panic "invalid memory address or nil pointer dereference"
                   end
               end
           end
       | (_, Some e) => mret (result, (None, Some (errors_Wrap e "Request error")))
       | (None, None) => panic "invalid memory address or nil pointer dereference"
       end
  end.

(** [json.Marshal(&request{Data: data, Options: options})]: it fails when
    the payload cannot be marshalled; a [nil] payload is written [null]. *)
Definition json_Marshal_request {T} `{Payload T} (data : option T) (options : Options)
    : RequestBody + Error :=
  match data with
  | None => inl (JSONBody JNull options)
  | Some x =>
      match json_Marshal x with
      | inl j => inl (JSONBody j options)
      | inr e => inr e
      end
  end.

(** [c.do(method, path, data, result, opts...)]: the destination after the
    call, and the error. *)
Definition do {T D} `{Payload T} `{Unmarshal D} (c : Client) (method path : string)
    (data : option T) (result : option D) (opts : slice (option nat))
    : Go (option D * option Error) :=
  options ← match opts with
            | None => mret None
            | Some [] => panic "runtime error: index out of range [0] with length 0"
            | Some (first :: _) => mret first
            end;
  options ← match options with
            | None => new Options_zero
            | Some p => mret p
            end;
  err ← mergo_Merge options (DefaultOptions c);
  match err with
  | Some e => mret (result, Some (errors_Wrap e "unable to merge options"))
  | None =>
      match validate data with
      | Some e => mret (result, Some e)
      | None =>
          merged ← deref options;
          match json_Marshal_request data merged with
          | inr e => mret (result, Some e)
          | inl body =>
              url ← getURL_call c path;
               match Http.NewRequest method url body with
               | (Some request, None) =>
                   let request := Http.Header_Add request "Content-Type" "application/json" in
                   let request := fastAPI c request in
                   resp ← Do c request;
                   match resp with
                   | inr e => mret (result, Some (errors_Wrap e (method ++ " error")))
                   | inl resp =>
                       let '(result', (_, err)) := parseResponse c resp result in
                       mret (result', err)
                   end
               | (_, Some e) => mret (result, Some (errors_Wrap e "Request error"))
               | (None, None) => panic "invalid memory address or nil pointer dereference"
               end
          end
      end
  end.

Definition post {T D} `{Payload T} `{Unmarshal D} (c : Client) (path : string)
    (data : option T) (result : option D) (opts : slice (option nat))
    : Go (option D * option Error) :=
  do c "POST" path data result opts.

Definition put {T D} `{Payload T} `{Unmarshal D} (c : Client) (path : string)
    (data : option T) (result : option D) (opts : slice (option nat))
    : Go (option D * option Error) :=
  do c "PUT" path data result opts.

(** ** [mime/multipart]: one part and the closing boundary *)

Module Multipart.

Definition CRLF : string := String "013" (String "010" EmptyString).

(** The double quote. *)
Definition DQUOTE : string := String "034" EmptyString.

(** [textproto.MIMEHeader]; the keys set below are in canonical form. *)
Abbreviation MIMEHeader := (gmap string (list string)).

Definition Header_Set (h : MIMEHeader) (key value : string) : MIMEHeader :=
  <[key := [value]]> h.

(** A [multipart.Writer] over a [bytes.Buffer]: what was written so far,
    the boundary, and whether a part is open. *)
Record Writer := {
  buffer : string;
  boundary : string;
  lastpart : bool
}.

Definition NewWriter (boundary : string) : Writer :=
  {| buffer := EmptyString; boundary := boundary; lastpart := false |}.

(** [w.CreatePart(header)]: the boundary line, the header lines with the
    keys in byte order, and an empty line. *)
Definition CreatePart (w : Writer) (header : MIMEHeader) : Writer * option Error :=
  let first :=
    if lastpart w then CRLF ++ "--" ++ boundary w ++ CRLF
    else "--" ++ boundary w ++ CRLF in
  let keys := merge_sort (fun a b => Is_true (String.leb a b)) (map fst (map_to_list header)) in
  let lines :=
    flat_map (fun k => map (fun v => k ++ ": " ++ v ++ CRLF) (default [] (header !! k))) keys in
  ({| buffer := buffer w ++ first ++ String.concat EmptyString lines ++ CRLF;
      boundary := boundary w; lastpart := true |}, None).

(** [w.Close()]: the closing boundary line. *)
Definition Close (w : Writer) : Writer * option Error :=
  ({| buffer := buffer w ++ CRLF ++ "--" ++ boundary w ++ "--" ++ CRLF;
      boundary := boundary w; lastpart := false |}, None).

Definition is_tspecial (c : ascii) : bool :=
  match c with
  | "("%char | ")"%char | "<"%char | ">"%char | "@"%char | ","%char | ";"%char
  | ":"%char | "\"%char | "034"%char | "/"%char | "["%char | "]"%char | "?"%char
  | "="%char | " "%char => true
  | _ => false
  end.

Fixpoint ContainsAny_tspecials (s : string) : bool :=
  match s with
  | EmptyString => false
  | String c r => is_tspecial c || ContainsAny_tspecials r
  end.

Definition FormDataContentType (w : Writer) : string :=
  let b := boundary w in
  let b := if ContainsAny_tspecials b then DQUOTE ++ b ++ DQUOTE else b in
  "multipart/form-data; boundary=" ++ b.

End Multipart.

(** [escapeQuotes(s)]: a backslash before every backslash and every double
    quote. *)
Fixpoint escapeQuotes (s : string) : string :=
  match s with
  | EmptyString => EmptyString
  | String c r =>
      if Ascii.eqb c "\" then String "\" (String "\" (escapeQuotes r))
      else if Ascii.eqb c "034" then String "\" (String "034" (escapeQuotes r))
      else String c (escapeQuotes r)
  end.

(** [c.postMultipart(path, result, field, r, filename, contentType)].
    [boundary] is the boundary that [multipart.NewWriter] draws at random.
    The body of the request is what the [io.MultiReader] over the header
    bytes, [r] and the footer bytes yields. *)
Definition postMultipart {D} `{Unmarshal D} (c : Client) (boundary : string) (path : string)
    (result : option D) (field : string) (r : ReadCloser) (filename contentType : string)
    : Go (option D * option Error) :=
  defer (Close r)
    (let partWriter := Multipart.NewWriter boundary in
     let h : Multipart.MIMEHeader := ∅ in
     let h := Multipart.Header_Set h "Content-Disposition"
                ("form-data; name=" ++ Multipart.DQUOTE ++ escapeQuotes field ++ Multipart.DQUOTE
                 ++ "; filename=" ++ Multipart.DQUOTE ++ escapeQuotes filename ++ Multipart.DQUOTE) in
     let h := Multipart.Header_Set h "Content-Type" contentType in
     let '(partWriter, err) := Multipart.CreatePart partWriter h in
     match err with
     | Some e => mret (result, Some (errors_Wrap e "create multipart header"))
     | None =>
         let headerSize := String.length (Multipart.buffer partWriter) in
         let '(partWriter, err) := Multipart.Close partWriter in
         match err with
         | Some e => mret (result, Some (errors_Wrap e "create multipart footer"))
         | None =>
             url ← getURL_call c path;
             let bytes := Multipart.buffer partWriter in
             let body :=
               StreamBody (substring 0 headerSize bytes ++ content r
                           ++ substring headerSize (String.length bytes - headerSize) bytes) in
             match Http.NewRequest "POST" url body with
             | (Some request, None) =>
                 let request :=
                   Http.Header_Add request "Content-Type" (Multipart.FormDataContentType partWriter) in
                 let request := fastAPI c request in
                 resp ← Do c request;
                 match resp with
                 | inr e => mret (result, Some (errors_Wrap e "POST error"))
                 | inl resp =>
                     let '(result', (_, err)) := parseResponse c resp result in
                     mret (result', err)
                 end
             | (_, Some e) => mret (result, Some (errors_Wrap e "Request error"))
             | (None, None) => panic "invalid memory address or nil pointer dereference"
             end
         end
     end).

(** ** Listing the projects of a workspace *)

(** The part of [Workspace] that the listing reads. *)
Record Workspace := {
  Workspace_ID : string;
  Workspace_Name : string
}.

(** [w.Projects(client, options...)]: a [[]*Project], the next page and the
    error. *)
Definition Projects (w : Workspace) (client : Client) (options : slice (option nat))
    : Go (list (option Project) * option NextPage * option Error) :=
  let result : list (option Project) := [] in
  '(result, (nextPage, err)) ←
    get client ("/workspaces/" ++ Workspace_ID w ++ "/projects")
        (None : option Empty_set) (Some result) options;
  mret (default [] result, nextPage, err).

(** The first two statements of the loop of [AllProjects], for the cursor
    [nextPage]: the options of the page are allocated and put before the
    caller's, and the page is fetched. *)
Definition fetch_page (w : Workspace) (client : Client) (options : slice (option nat))
    (nextPage : NextPage) : Go (list (option Project) * option NextPage * option Error) :=
  page ← new {| Limit := 100; Offset := NP_Offset nextPage; Fields := [] |};
  let allOptions := Some (Some page :: range options) in
  Projects w client allOptions.

(** The loop of [AllProjects], entered with [allProjects] and [nextPage];
    [None] when [fuel] rounds did not reach the end of the listing. *)
Fixpoint AllProjects_loop (fuel : nat) (w : Workspace) (client : Client)
    (options : slice (option nat)) (allProjects : list (option Project))
    (nextPage : option NextPage)
    : Go (option (list (option Project) * option Error)) :=
  match nextPage with
  | None => mret (Some (allProjects, None))
  | Some cursor =>
      match fuel with
      | O => mret None
      | S fuel =>
          '(projects, nextPage, err) ← fetch_page w client options cursor;
          match err with
          | Some e => mret (Some ([], Some e))
          | None =>
              AllProjects_loop fuel w client options (allProjects ++ projects)%list nextPage
          end
      end
  end.

(** [w.AllProjects(client, options...)]. *)
Definition AllProjects (fuel : nat) (w : Workspace) (client : Client)
    (options : slice (option nat)) : Go (option (list (option Project) * option Error)) :=
  AllProjects_loop fuel w client options [] (Some NextPage_zero).

#[global] Arguments validate : simpl never.
#[global] Arguments mergeQuery : simpl never.
#[global] Arguments parseResponse : simpl never.
#[global] Arguments json_Marshal_request : simpl never.
#[global] Arguments Http.NewRequest : simpl never.
#[global] Arguments getURL : simpl never.
#[global] Arguments get_query : simpl never.
#[global] Arguments mergo_Merge_fields : simpl never.
#[global] Arguments Multipart.CreatePart : simpl never.
#[global] Arguments Multipart.Close : simpl never.
#[global] Arguments Multipart.Header_Set : simpl never.
#[global] Arguments Multipart.FormDataContentType : simpl never.

(** ** The sources of a query, in the words of the spec *)

(** The parameter mappings that [get] merges, in the order of increasing
    precedence: the client's defaults, the request value when there is one,
    then each of the supplied [Options]. *)
Definition get_sources {T} `{Payload T} (c : Client) (data : option T)
    (opts : list (option Options)) : list Values :=
  (fst (query_Values (DefaultOptions c))
   :: match data with
      | Some x => [fst (query_Values x)]
      | None => []
      end
   ++ map (fun o => fst (query_Values o)) opts)%list.

(** What a source that produces [values] for a key leaves under the key:
    these values alone. *)
Definition replaced_by (values : list string) : option (list string) :=
  match values with
  | [] => None
  | _ => Some values
  end.

(** The values under [k] after the sources were applied in order over
    [earlier]: those of the last source that produces [k]. *)
Fixpoint later_wins (k : string) (sources : list Values) (earlier : option (list string))
    : option (list string) :=
  match sources with
  | [] => earlier
  | s :: rest =>
      later_wins k rest (match s !! k with
                         | Some values => replaced_by values
                         | None => earlier
                         end)
  end.

(** ** Merged options, in the words of the spec *)

(** [M] is [B] merged over [A]: every field that is set in [B] has [B]'s
    value in [M], every field that is unset in [B] has [A]'s. *)
Definition merged_over (A B M : Options) : Prop :=
  (Limit B <> 0 -> Limit M = Limit B) /\ (Limit B = 0 -> Limit M = Limit A) /\
  (Offset B <> EmptyString -> Offset M = Offset B) /\
  (Offset B = EmptyString -> Offset M = Offset A) /\
  (Fields B <> [] -> Fields M = Fields B) /\ (Fields B = [] -> Fields M = Fields A).

(** ** Paths and upload bodies, in the words of the spec *)

(** A path is rooted when it begins with a slash. *)
Definition rooted (path : string) : bool :=
  match path with
  | String "/"%char _ => true
  | _ => false
  end.

(** The path that [Project.CreateSection] passes to [post]:
    [fmt.Sprintf("projects/%s/sections", p.ID)]. *)
Definition CreateSection_path (p : Project) : string :=
  "projects/" ++ ID p ++ "/sections".

(** The MIME header of the one part of an upload, and the closing
    boundary. *)
Definition multipart_header (boundary field filename contentType : string) : string :=
  "--" ++ boundary ++ Multipart.CRLF
  ++ "Content-Disposition: form-data; name=" ++ Multipart.DQUOTE ++ escapeQuotes field
  ++ Multipart.DQUOTE ++ "; filename=" ++ Multipart.DQUOTE ++ escapeQuotes filename
  ++ Multipart.DQUOTE ++ Multipart.CRLF
  ++ "Content-Type: " ++ contentType ++ Multipart.CRLF
  ++ Multipart.CRLF.

Definition multipart_footer (boundary : string) : string :=
  Multipart.CRLF ++ "--" ++ boundary ++ "--" ++ Multipart.CRLF.

(** ** A listing, in the words of the spec *)

(** [pages_fetched w client options cursor world pages last world']: from
    the cursor [cursor] in the world [world], the successive page fetches
    of the loop succeed and return the pages [pages] in this order, every
    fetch starting from the cursor that the one before returned; after
    them the cursor is [last] and the world is [world']. *)
Inductive pages_fetched (w : Workspace) (client : Client) (options : slice (option nat))
  : option NextPage -> World -> list (list (option Project)) -> option NextPage -> World -> Prop :=
| pages_fetched_none cursor world :
    pages_fetched w client options cursor world [] cursor world
| pages_fetched_more cursor world items next world' pages last world'' :
    fetch_page w client options cursor world = (world', Returns (items, next, None)) ->
    pages_fetched w client options next world' pages last world'' ->
    pages_fetched w client options (Some cursor) world (items :: pages) last world''.

(** ** Sample values *)

(** JSON text is written with an apostrophe for every double quote. *)
Fixpoint json_text (s : string) : string :=
  match s with
  | EmptyString => EmptyString
  | String c r => String (if Ascii.eqb c "'" then "034"%char else c) (json_text r)
  end.

Definition no_world : World := {| heap := []; sent := []; closed := [] |}.

Definition respond (status : Z) (body : string) : HttpResponse :=
  {| StatusCode := status; Status := pretty status; ReadAll := (json_text body, None) |}.

(** A client whose HTTP client answers every request with [resp]. *)
Definition client_answering (defaults : Options) (resp : HttpResponse + Error) : Client :=
  {| BaseURL := "https://app.asana.com/api/1.0";
     HTTPClient := fun _ _ => resp;
     Debug := false;
     FastAPI := true;
     DefaultOptions := defaults |}.

Definition some_project : Project := {| ID := "7"; Name := "before" |}.

(** Defaults with a page size and a field selector, and two call options
    that both set the page size. *)
Definition defaults_50 : Options := {| Limit := 50; Offset := EmptyString; Fields := ["name"; "notes"] |}.
Definition options_10 : Options := {| Limit := 10; Offset := EmptyString; Fields := [] |}.
Definition options_20_x : Options := {| Limit := 20; Offset := "x"; Fields := [] |}.

(** A payload type with the validation capability: a name, which must
    not be empty. *)
Record Named := { Named_name : string }.

#[global] Instance Payload_Named : Payload Named := {|
  Validate := Some (fun x =>
    if decide (Named_name x = EmptyString) then Some (ErrorString "name is required") else None);
  Payload_query := fun x => (Values_Add ∅ "name" (Named_name x), None);
  json_Marshal := fun x => inl (JObject [("name", JString (Named_name x))])
|}.

Definition created : HttpResponse + Error :=
  inl (respond 201 "{'data':{'gid':'12','name':'Launch'}}").

(** A world in which the caller holds one [Options] value, at address 0. *)
Definition world_with (o : Options) : World := {| heap := [o]; sent := []; closed := [] |}.

(** An empty file to upload, under handle 3. *)
Definition empty_file : ReadCloser := {| handle := 3; content := EmptyString |}.

Definition uploaded : HttpResponse + Error :=
  inl (respond 200 "{'data':{'gid':'31','name':'empty.txt'}}").

(** A workspace and an HTTP client that serves its projects in three
    pages, under the offsets [a] and [b]. *)
Definition workspace_77 : Workspace := {| Workspace_ID := "77"; Workspace_Name := "Ops" |}.

Definition three_pages (history : list Request) (request : Request) : HttpResponse + Error :=
  let url := URL request in
  if String.eqb url "https://app.asana.com/api/1.0/workspaces/77/projects?limit=100" then
    inl (respond 200 "{'data':[{'gid':'1','name':'one'},{'gid':'2','name':'two'}],'next_page':{'offset':'a','path':'/workspaces/77/projects?limit=100&offset=a','uri':'https://app.asana.com/api/1.0/workspaces/77/projects?limit=100&offset=a'}}")
  else if String.eqb url "https://app.asana.com/api/1.0/workspaces/77/projects?limit=100&offset=a" then
    inl (respond 200 "{'data':[{'gid':'3','name':'three'}],'next_page':{'offset':'b','path':'/workspaces/77/projects?limit=100&offset=b','uri':'https://app.asana.com/api/1.0/workspaces/77/projects?limit=100&offset=b'}}")
  else if String.eqb url "https://app.asana.com/api/1.0/workspaces/77/projects?limit=100&offset=b" then
    inl (respond 200 "{'data':[{'gid':'4','name':'four'},{'gid':'5','name':'five'}],'next_page':null}")
  else inl (respond 400 "{'errors':[{'message':'offset: Your pagination token is invalid.'}]}").

Definition client_three_pages : Client :=
  {| BaseURL := "https://app.asana.com/api/1.0";
     HTTPClient := three_pages;
     Debug := false;
     FastAPI := true;
     DefaultOptions := Options_zero |}.

Definition page_1 : list (option Project) :=
  [Some {| ID := "1"; Name := "one" |}; Some {| ID := "2"; Name := "two" |}].
Definition page_2 : list (option Project) := [Some {| ID := "3"; Name := "three" |}].
Definition page_3 : list (option Project) :=
  [Some {| ID := "4"; Name := "four" |}; Some {| ID := "5"; Name := "five" |}].

(** The same client behind a connection that breaks at the second page. *)
Definition client_breaking : Client :=
  {| BaseURL := "https://app.asana.com/api/1.0";
     HTTPClient := fun history request =>
       match history with
       | [] => three_pages history request
       | _ => inr (ErrorString "connection reset by peer")
       end;
     Debug := false;
     FastAPI := true;
     DefaultOptions := Options_zero |}.

(** ** The call sites: sections and projects *)

(** [client.trace] and [client.info], declared outside the files at hand,
    are taken to write to the process log only; what stays of such a call
    is the evaluation of its arguments, which dereferences the pointer it
    reads a name from. *)

(** [NewClient(httpClient)]: the default base URL, the fast API switched
    on, everything else at its zero value. *)
Definition NewClient (httpClient : list Request -> Request -> HttpResponse + Error) : Client :=
  {| BaseURL := "https://app.asana.com/api/1.0";
     HTTPClient := httpClient;
     Debug := false;
     FastAPI := true;
     DefaultOptions := Options_zero |}.

(** A [nil] destination points to no variable; [unit] stands for the
    type of the variable that is not there. *)
#[global] Instance Unmarshal_nothing : Unmarshal unit := {|
  zero := tt;
  decode := fun _ v => (v, None)
|}.

(** The part of [Section] that the files at hand show: the [ID] and the
    [expanded] mark of [Expandable], the [Name] of [WithName], and
    [Project]. *)
Record AsanaSection := {
  Section_ID : string;
  Section_expanded : bool;
  Section_Name : string;
  Section_Project : string
}.

Definition AsanaSection_zero : AsanaSection :=
  {| Section_ID := EmptyString; Section_expanded := false;
     Section_Name := EmptyString; Section_Project := EmptyString |}.

(** [SectionBase], as far as [CreateSection] reads it. *)
Record SectionBase := { SectionBase_Name : string }.

Record SectionInsertRequest := {
  Insert_Project : string;
  Insert_Section : string;
  Insert_BeforeSection : string;
  Insert_AfterSection : string
}.

(** [p.CreateSection(client, section)]: the new section and the error.
    [section.Name] is read first, which panics on a [nil] pointer. *)
Definition CreateSection `{Unmarshal AsanaSection} `{Payload SectionBase}
    (p : Project) (client : Client) (section : option SectionBase)
    : Go (AsanaSection * option Error) :=
  match section with
  | None => panic "invalid memory address or nil pointer dereference"
  | Some _ =>
      let result :=
        {| Section_ID := EmptyString; Section_expanded := true;
           Section_Name := EmptyString; Section_Project := EmptyString |} in
      '(result', err) ←
        post client ("projects/" ++ ID p ++ "/sections") section (Some result) None;
      mret (default result result', err)
  end.

(** [p.InsertSection(client, request)]: the destination is [nil]. *)
Definition InsertSection `{Payload SectionInsertRequest}
    (p : Project) (client : Client) (request : option SectionInsertRequest)
    : Go (option Error) :=
  match request with
  | None => panic "invalid memory address or nil pointer dereference"
  | Some _ =>
      '(_, err) ←
        post client ("projects/" ++ ID p ++ "/sections/insert") request
             (None : option unit) None;
      mret err
  end.

(** [p.Fetch(client, opts...)]: the project after the call, and the
    error.  [p.Name] is read first, which panics on a [nil] receiver. *)
Definition Fetch (p : option Project) (client : Client) (opts : slice (option nat))
    : Go (Project * option Error) :=
  match p with
  | None => panic "invalid memory address or nil pointer dereference"
  | Some p =>
      '(result, (_, err)) ←
        get client ("/projects/" ++ ID p) (None : option Empty_set) (Some p) opts;
      mret (default p result, err)
  end.

(** [c.CreateProject(project)], for a request value of any type [T] that
    stands for [CreateProjectRequest] (whose fields are of types declared
    outside the files at hand).  [project.Name] is read first. *)
Definition CreateProject {T} `{Payload T} (c : Client) (project : option T)
    : Go (Project * option Error) :=
  match project with
  | None => panic "invalid memory address or nil pointer dereference"
  | Some _ =>
      let result : Project := zero in
      '(result', err) ← post c "/projects" project (Some result) None;
      mret (default result result', err)
  end.

(** ** Text that a URL holds as it is *)

(** An identifier of letters, digits and [-_.~] only, the bytes that no
    part of a URL escapes. *)
Fixpoint unreserved (s : string) : bool :=
  match s with
  | EmptyString => true
  | String c r => negb (Url.shouldEscape c) && unreserved r
  end.

(** A text without control bytes and without [#], [?] and [%]: [url.Parse]
    takes all of it for the path, and the path holds it unchanged. *)
Fixpoint plain (s : string) : bool :=
  match s with
  | EmptyString => true
  | String c r =>
      negb (Http.is_ctl c) && negb (Ascii.eqb c "#") && negb (Ascii.eqb c "?")
      && negb (Ascii.eqb c "%") && plain r
  end.

(** ** Reading a quoted string *)

(** The text of a quoted string of a MIME header after its opening quote,
    read up to the closing quote: a backslash makes the byte after it
    count as it is.  The value read, and what follows the closing quote. *)
Fixpoint quoted_string (s : string) : option (string * string) :=
  match s with
  | EmptyString => None
  | String "034"%char rest => Some (EmptyString, rest)
  | String "\"%char (String c rest) =>
      match quoted_string rest with
      | Some (v, rest') => Some (String c v, rest')
      | None => None
      end
  | String c rest =>
      match quoted_string rest with
      | Some (v, rest') => Some (String c v, rest')
      | None => None
      end
  end.

(** ** More sample values *)

(** The world after [request] was handed to the HTTP client. *)
Definition sending (w : World) (request : Request) : World :=
  {| heap := heap w; sent := (sent w ++ [request])%list; closed := closed w |}.

(** The pointer that a write call merges the defaults into (the first of
    [opts], or a new cell when there is none) and the world after the
    merge. *)
Definition after_merge (c : Client) (opts : slice (option nat)) (w : World) : nat * World :=
  let '(p, cells) :=
    match opts with
    | Some (Some p :: _) => (p, heap w)
    | _ => (length (heap w), (heap w ++ [Options_zero])%list)
    end in
  (p, {| heap := <[p := mergo_Merge_fields (default Options_zero (cells !! p))
                           (DefaultOptions c)]> cells;
         sent := sent w; closed := closed w |}).

(** A file of five bytes to upload, under handle 4. *)
Definition hello_file : ReadCloser := {| handle := 4; content := "hello" |}.

(** An HTTP client that answers every request with one project and a
    cursor for more. *)
Definition client_endless : Client :=
  NewClient (fun _ _ =>
    inl (respond 200 "{'data':[{'gid':'1','name':'one'}],'next_page':{'offset':'a','path':'/p','uri':'u'}}")).

(** A request to move a section, with the encodings that the tags of
    [SectionInsertRequest] give it and no [Validate] method. *)
Definition insert_request : SectionInsertRequest :=
  {| Insert_Project := "7"; Insert_Section := "21";
     Insert_BeforeSection := "22"; Insert_AfterSection := EmptyString |}.

#[global] Instance Payload_SectionInsertRequest : Payload SectionInsertRequest := {|
  Validate := None;
  Payload_query := fun x =>
    (Values_Add (Values_Add (Values_Add (Values_Add ∅ "Project" (Insert_Project x))
         "Section" (Insert_Section x)) "BeforeSection" (Insert_BeforeSection x))
         "AfterSection" (Insert_AfterSection x), None);
  json_Marshal := fun x =>
    inl (JObject ([("project_gid", JString (Insert_Project x));
                   ("section", JString (Insert_Section x))]
                  ++ (if decide (Insert_BeforeSection x = EmptyString) then []
                      else [("before_section", JString (Insert_BeforeSection x))])
                  ++ (if decide (Insert_AfterSection x = EmptyString) then []
                      else [("after_section", JString (Insert_AfterSection x))]))%list)
|}.

(** * Properties *)

(** ** The response decoder *)

Lemma status_ok_spec (status : Z) :
  status_ok status = true <-> status = 200 \/ status = 201.
Proof.
  split.
  - destruct status as [|p|p]; try discriminate.
    do 8 (destruct p as [p|p|]; try discriminate); auto.
  - intros [-> | ->]; reflexivity.
Qed.

Lemma status_ok_false (status : Z) :
  status <> 200 -> status <> 201 -> status_ok status = false.
Proof.
  intros H200 H201. destruct (status_ok status) eqn:Hok; [|reflexivity].
  apply status_ok_spec in Hok. tauto.
Qed.

Section parseResponse.
Context {D : Type} `{Unmarshal D}.
Variables (c : Client) (resp : HttpResponse) (result : option D).

(** Whatever the status, a body that cannot be read or is not an
    envelope ends the call before the status is looked at. *)
Lemma parseResponse_read_error body e :
  ReadAll resp = (body, Some e) ->
  parseResponse c resp result = (result, (None, Some e)).
Proof. intros Hread. unfold parseResponse. rewrite Hread. reflexivity. Qed.

Lemma parseResponse_decode_error body value e :
  ReadAll resp = (body, None) ->
  json_Unmarshal_into (Json.parse body) Response_zero = (value, Some e) ->
  parseResponse c resp result = (result, (None, Some e)).
Proof.
  intros Hread Hdec. unfold parseResponse. rewrite Hread, Hdec. reflexivity.
Qed.

(** The destination changes only under status 200 or 201. *)
Lemma parseResponse_writes_on_success :
  fst (parseResponse c resp result) <> result ->
  StatusCode resp = 200 \/ StatusCode resp = 201.
Proof.
  unfold parseResponse. intros Hneq. apply status_ok_spec.
  destruct (ReadAll resp) as [body [e|]]; simpl in Hneq; [congruence|].
  destruct (json_Unmarshal_into _ _) as [value [e|]]; simpl in Hneq; [congruence|].
  destruct (status_ok (StatusCode resp)); [reflexivity|]. simpl in Hneq. congruence.
Qed.

(** An envelope without a [data] member under status 200 or 201. *)
Lemma parseResponse_missing_data body value :
  StatusCode resp = 200 \/ StatusCode resp = 201 ->
  ReadAll resp = (body, None) ->
  json_Unmarshal_into (Json.parse body) Response_zero = (value, None) ->
  Data value = None ->
  parseResponse c resp result
  = (result, (None, Some (ErrorString "Missing data from response"))).
Proof.
  intros Hst Hread Hdec Hdata. unfold parseResponse.
  rewrite Hread, Hdec. apply status_ok_spec in Hst. rewrite Hst, Hdata. reflexivity.
Qed.

End parseResponse.

(** The member [data] of an envelope is kept as it is written: a [null]
    leaves the four bytes [null] in the raw message, not a [nil] slice. *)
Lemma decode_data_member (x : json) :
  Data (fst (decode (JObject [("data", x)]) Response_zero)) = Some x.
Proof. reflexivity. Qed.

(** C2 (as amended).  Under a status other than 200 and 201 the decoder
    returns an error and no envelope and leaves the destination as it was;
    when the body was read and decoded as an envelope, the error is the API
    error built from the envelope's [errors] list and the status. *)
Theorem parseResponse_failure_status {D : Type} `{Unmarshal D}
    (c : Client) (resp : HttpResponse) (result : option D) :
  StatusCode resp <> 200 -> StatusCode resp <> 201 ->
  fst (parseResponse c resp result) = result /\
  fst (snd (parseResponse c resp result)) = None /\
  is_Some (snd (snd (parseResponse c resp result))) /\
  (forall body value,
      ReadAll resp = (body, None) ->
      json_Unmarshal_into (Json.parse body) Response_zero = (value, None) ->
      snd (snd (parseResponse c resp result))
      = Some (APIError (StatusCode resp) (Resp_Errors value))).
Proof.
  intros H200 H201. pose proof (status_ok_false _ H200 H201) as Hok.
  unfold parseResponse.
  destruct (ReadAll resp) as [body [e|]] eqn:Hread; simpl.
  { repeat split; eauto. intros ? ? [=]. }
  destruct (json_Unmarshal_into (Json.parse body) Response_zero) as [value [e|]] eqn:Hdec; simpl.
  { repeat split; eauto. intros ? ? [= <-]. rewrite Hdec. intros [=]. }
  rewrite Hok. simpl. repeat split; eauto.
  intros ? ? [= <-]. rewrite Hdec. intros [= <-]. reflexivity.
Qed.

(** The spec's example: a 404 response carrying [not found]. *)
Lemma parseResponse_failure_status_witness :
  StatusCode (respond 404 "{'errors':[{'message':'not found'}]}") <> 200 /\
  StatusCode (respond 404 "{'errors':[{'message':'not found'}]}") <> 201 /\
  parseResponse (client_answering Options_zero (inr SyntaxError))
                (respond 404 "{'errors':[{'message':'not found'}]}") (Some some_project)
  = (Some some_project, (None, Some (APIError 404 [Some {| Message := "not found" |}]))).
Proof.
  assert (H200 : StatusCode (respond 404 "{'errors':[{'message':'not found'}]}") <> 200)
    by discriminate.
  assert (H201 : StatusCode (respond 404 "{'errors':[{'message':'not found'}]}") <> 201)
    by discriminate.
  split; [exact H200|]. split; [exact H201|].
  destruct (parseResponse_failure_status
              (client_answering Options_zero (inr SyntaxError))
              (respond 404 "{'errors':[{'message':'not found'}]}")
              (Some some_project) H200 H201) as (Hdest & Hvalue & _ & Herr).
  specialize (Herr _ _ eq_refl eq_refl).
  destruct (parseResponse _ _ _) as [d [v e]]. simpl in *.
  rewrite Hdest, Hvalue, Herr. reflexivity.
Defined.

(** C2 (as stated) fails: a 502 response whose body is an HTML page gives
    the decoder's syntax error, which is no API error. *)
Lemma parseResponse_failure_status_counterexample :
  StatusCode (respond 502 "<html>Bad Gateway</html>") <> 200 /\
  StatusCode (respond 502 "<html>Bad Gateway</html>") <> 201 /\
  snd (snd (parseResponse (client_answering Options_zero (inr SyntaxError))
                          (respond 502 "<html>Bad Gateway</html>") (Some some_project)))
  = Some SyntaxError /\
  ~ (exists status errors,
        snd (snd (parseResponse (client_answering Options_zero (inr SyntaxError))
                                (respond 502 "<html>Bad Gateway</html>") (Some some_project)))
        = Some (APIError status errors)).
Proof.
  split; [discriminate|]. split; [discriminate|].
  assert (Hrun : snd (snd (parseResponse (client_answering Options_zero (inr SyntaxError))
                          (respond 502 "<html>Bad Gateway</html>") (Some some_project)))
                 = Some SyntaxError) by (vm_compute; reflexivity).
  split; [exact Hrun|]. rewrite Hrun. intros (status & errors & [=]).
Qed.

(** C3.  The code at a 200 response whose [data] is [null]: the call
    succeeds, with the envelope and no error. *)
Theorem parseResponse_null_data :
  parseResponse (client_answering Options_zero (inr SyntaxError))
                (respond 200 "{'data': null}") (Some some_project)
  = (Some some_project,
     (Some {| Data := Some JNull; Resp_NextPage := None; Resp_Errors := [] |}, None)).
Proof. vm_compute. reflexivity. Qed.

(** The spec's example of a successful decoding. *)
Example parseResponse_gid :
  parseResponse (client_answering Options_zero (inr SyntaxError))
                (respond 200 "{'data':{'gid':'1'},'next_page':null,'errors':null}")
                (Some some_project)
  = (Some {| ID := "1"; Name := "before" |},
     (Some {| Data := Some (JObject [("gid", JString "1")]);
              Resp_NextPage := None; Resp_Errors := [] |}, None)).
Proof. vm_compute. reflexivity. Qed.

Example parseResponse_no_data :
  parseResponse (client_answering Options_zero (inr SyntaxError))
                (respond 200 "{'next_page':null}") (Some some_project)
  = (Some some_project, (None, Some (ErrorString "Missing data from response"))).
Proof. vm_compute. reflexivity. Qed.

(** ** Merging query parameters *)

Lemma Values_Add_fold (k : string) (values : list string) (q : Values) (k' : string) :
  fold_left (fun q value => Values_Add q k value) values q !! k'
  = if decide (k = k')
    then match values with
         | [] => q !! k
         | _ => Some (default [] (q !! k) ++ values)%list
         end
    else q !! k'.
Proof.
  revert q. induction values as [|v values IH]; intros q; simpl.
  - destruct (decide (k = k')); congruence.
  - rewrite IH. unfold Values_Add.
    destruct (decide (k = k')) as [->|Hne].
    + rewrite lookup_insert_eq. simpl.
      destruct values; simpl; rewrite <- ?app_assoc; reflexivity.
    + rewrite lookup_insert_ne by done. reflexivity.
Qed.

(** One round of the loop puts exactly the values of the entry under its
    key, and touches no other key. *)
Lemma mergeQuery_entry_lookup (q : Values) (entry : string * list string) (k : string) :
  mergeQuery_entry q entry !! k
  = if decide (fst entry = k) then replaced_by (snd entry) else q !! k.
Proof.
  unfold mergeQuery_entry, Values_Del. rewrite Values_Add_fold.
  destruct (decide (fst entry = k)) as [->|Hne].
  - rewrite lookup_delete_eq. destruct (snd entry); reflexivity.
  - rewrite lookup_delete_ne by done. reflexivity.
Qed.

Lemma mergeQuery_loop_lookup (entries : list (string * list string)) (q : Values) (k : string) :
  NoDup (map fst entries) ->
  mergeQuery_loop entries q !! k
  = match (list_to_map entries : Values) !! k with
    | Some values => replaced_by values
    | None => q !! k
    end.
Proof.
  unfold mergeQuery_loop. revert q.
  induction entries as [|[k0 vs] entries IH]; intros q Hnd; simpl.
  - rewrite lookup_empty. reflexivity.
  - inversion Hnd as [|? ? Hnotin Hnd']; subst.
    rewrite IH by assumption. rewrite mergeQuery_entry_lookup. simpl.
    destruct (decide (k0 = k)) as [->|Hne].
    + rewrite lookup_insert_eq.
      rewrite (not_elem_of_list_to_map_1 (M := gmap string)); [reflexivity|].
      intros Hin. exact (Hnotin Hin).
    + rewrite lookup_insert_ne by done. reflexivity.
Qed.

(** The order in which the [range] yields the entries of the map does not
    matter. *)
Lemma mergeQuery_loop_order (queryParams q : Values) (entries : list (string * list string)) :
  entries ≡ₚ map_to_list queryParams ->
  mergeQuery_loop entries q = mergeQuery_loop (map_to_list queryParams) q.
Proof.
  intros Hperm. apply map_eq. intros k.
  assert (Hnd : NoDup (map fst (map_to_list queryParams)))
    by apply NoDup_fst_map_to_list.
  rewrite !mergeQuery_loop_lookup; try assumption.
  - rewrite (list_to_map_proper (M := gmap string) _ _ Hnd (symmetry Hperm)). reflexivity.
  - change (NoDup (fst <$> entries)). rewrite Hperm. exact Hnd.
Qed.

(** [mergeQuery]: every key that the request produces holds the request's
    values alone; every other key is as before. *)
Lemma mergeQuery_lookup {T} `{QueryEncoder T} (q q' : Values) (request : T) (k : string) :
  mergeQuery q request = (q', None) ->
  q' !! k = match fst (query_Values request) !! k with
            | Some values => replaced_by values
            | None => q !! k
            end.
Proof.
  unfold mergeQuery. destruct (query_Values request) as [queryParams [e|]]; [discriminate|].
  intros [= <-]. simpl.
  rewrite mergeQuery_loop_lookup by apply NoDup_fst_map_to_list.
  rewrite list_to_map_to_list. reflexivity.
Qed.

Lemma mergeQuery_error {T} `{QueryEncoder T} (q q' : Values) (request : T) (e : Error) :
  mergeQuery q request = (q', Some e) -> q' = q.
Proof.
  unfold mergeQuery. destruct (query_Values request) as [queryParams [e0|]]; congruence.
Qed.

Lemma later_wins_none (k : string) (sources : list Values) (earlier : option (list string)) :
  Forall (fun s : Values => s !! k = None) sources ->
  later_wins k sources earlier = earlier.
Proof.
  revert earlier. induction sources as [|s sources IH]; intros earlier Hall; simpl.
  - reflexivity.
  - inversion Hall as [|? ? Hs Hrest]; subst. rewrite Hs. apply IH, Hrest.
Qed.

Lemma later_wins_last (k : string) (before after : list Values) (s : Values)
    (values : list string) (earlier : option (list string)) :
  s !! k = Some values ->
  Forall (fun s' : Values => s' !! k = None) after ->
  later_wins k (before ++ s :: after) earlier = replaced_by values.
Proof.
  intros Hs Hafter. revert earlier.
  induction before as [|b before IH]; intros earlier; simpl.
  - rewrite Hs. apply later_wins_none, Hafter.
  - apply IH.
Qed.

Lemma get_options_lookup (q q' : Values) (opts : list (option Options)) (k : string) :
  get_options q opts = (q', None) ->
  q' !! k = later_wins k (map (fun o => fst (query_Values o)) opts) (q !! k).
Proof.
  revert q. induction opts as [|o opts IH]; intros q; simpl.
  - intros [= <-]. reflexivity.
  - destruct (mergeQuery q o) as [q1 [e|]] eqn:Hmerge; [discriminate|].
    intros Hrest. rewrite (IH _ Hrest).
    rewrite (mergeQuery_lookup _ _ _ k Hmerge). reflexivity.
Qed.

(** [query.Values] of an [Options] gives every key it produces a value. *)
Lemma query_Values_Options_nonempty (o : Options) (k : string) (values : list string) :
  fst (query_Values o) !! k = Some values -> replaced_by values = Some values.
Proof.
  assert (Hadd : forall (q : Values) key value,
             (forall vs, q !! k = Some vs -> replaced_by vs = Some vs) ->
             forall vs, Values_Add q key value !! k = Some vs -> replaced_by vs = Some vs).
  { intros q key value Hq vs. unfold Values_Add.
    destruct (decide (key = k)) as [->|Hne].
    - rewrite lookup_insert_eq. intros [= <-].
      destruct (default [] (q !! k)); reflexivity.
    - rewrite lookup_insert_ne by done. apply Hq. }
  unfold query_Values, QueryEncoder_Options. cbn. revert values.
  repeat case_decide; repeat apply Hadd; intros vs; rewrite lookup_empty; intros [=].
Qed.

Lemma get_query_lookup {T} `{Payload T} (c : Client) (data : option T)
    (opts : list (option Options)) (q : Values) (k : string) :
  get_query c data opts = (q, None) ->
  q !! k = later_wins k (get_sources c data opts) None.
Proof.
  unfold get_query, get_sources.
  pose proof (query_Values_Options_nonempty (DefaultOptions c) k) as Hdef.
  destruct (query_Values (DefaultOptions c)) as [q0 [e|]]; [intros [=]|]. simpl in *.
  assert (Hq0 : match q0 !! k with
                | Some values => replaced_by values
                | None => None
                end = q0 !! k).
  { destruct (q0 !! k) as [vs|]; [apply Hdef|]; reflexivity. }
  rewrite Hq0. clear Hq0 Hdef.
  destruct data as [x|]; simpl.
  - destruct (validate (Some x)) as [e|]; [simpl; intros [=]|].
    destruct (mergeQuery q0 x) as [q1 [e1|]] eqn:Hmerge; [simpl; intros [=]|].
    intros Hopts. rewrite (get_options_lookup _ _ _ k Hopts).
    rewrite (mergeQuery_lookup _ _ _ k Hmerge). reflexivity.
  - intros Hopts. apply (get_options_lookup _ _ _ k Hopts).
Qed.

(** C4.  The query mapping that [get] builds holds, under every key, the
    values of the last source that produces the key (the sources being the
    client defaults, then the request value, then each supplied [Options]
    in order): these values alone, nothing that an earlier source set under
    the key; a key that a later source does not produce keeps what the
    earlier sources left, and a key that no source produces is absent. *)
Theorem get_query_later_source_replaces {T} `{Payload T} (c : Client) (data : option T)
    (opts : list (option Options)) (q : Values) (k : string) :
  get_query c data opts = (q, None) ->
  (forall before s after values,
      get_sources c data opts = (before ++ s :: after)%list ->
      s !! k = Some values ->
      Forall (fun s' : Values => s' !! k = None) after ->
      q !! k = replaced_by values) /\
  (Forall (fun s : Values => s !! k = None) (get_sources c data opts) -> q !! k = None).
Proof.
  intros Hq. rewrite (get_query_lookup _ _ _ _ k Hq). split.
  - intros before s after values -> Hs Hafter. apply later_wins_last; assumption.
  - apply later_wins_none.
Qed.

Lemma get_query_later_source_replaces_witness :
  get_query (client_answering defaults_50 (inr SyntaxError)) (None : option Empty_set)
            [Some options_10; Some options_20_x]
  = (fst (get_query (client_answering defaults_50 (inr SyntaxError)) (None : option Empty_set)
                    [Some options_10; Some options_20_x]), None) /\
  fst (get_query (client_answering defaults_50 (inr SyntaxError)) (None : option Empty_set)
                 [Some options_10; Some options_20_x]) !! "limit" = Some ["20"].
Proof.
  assert (Hrun : get_query (client_answering defaults_50 (inr SyntaxError))
                           (None : option Empty_set) [Some options_10; Some options_20_x]
                 = (fst (get_query (client_answering defaults_50 (inr SyntaxError))
                                   (None : option Empty_set)
                                   [Some options_10; Some options_20_x]), None))
    by (vm_compute; reflexivity).
  split; [exact Hrun|].
  destruct (get_query_later_source_replaces _ _ _ _ "limit" Hrun) as [Hlast _].
  apply (Hlast [fst (query_Values defaults_50); fst (query_Values (Some options_10))]
               (fst (query_Values (Some options_20_x))) [] ["20"]).
  - reflexivity.
  - vm_compute. reflexivity.
  - constructor.
Defined.

Example get_query_encoded :
  Url.Encode (fst (get_query (client_answering defaults_50 (inr SyntaxError))
                             (None : option Empty_set)
                             [Some options_10; Some options_20_x]))
  = "limit=20&offset=x&opt_fields=name%2Cnotes".
Proof. vm_compute. reflexivity. Qed.

(** ** Write calls *)

Ltac go_unfold :=
  unfold mbind, mret, Go_bind, Go_ret, panic, getURL_call, deref, deref_all,
    store, new, Do, defer, mergo_Merge; simpl.

(** [http.NewRequest] gives an error and no request, or a request with the
    URL and the body it was given and no header yet. *)
Lemma NewRequest_cases (method url : string) (body : RequestBody) :
  (exists e, Http.NewRequest method url body = (None, Some e)) \/
  (exists m,
      Http.NewRequest method url body
      = (Some {| Method := m; URL := url; Header := []; Body := body |}, None)).
Proof.
  unfold Http.NewRequest.
  destruct (negb (Http.validMethod _)); [left; eauto|].
  destruct (Http.parses url); [right|left]; eauto.
Qed.

Lemma NewRequest_ok (method url : string) (body : RequestBody) :
  method <> EmptyString -> Http.validMethod method = true -> Http.parses url = true ->
  Http.NewRequest method url body
  = (Some {| Method := method; URL := url; Header := []; Body := body |}, None).
Proof.
  intros Hne Hvalid Hparses. unfold Http.NewRequest.
  destruct (String.eqb_spec method EmptyString) as [->|_]; [congruence|].
  rewrite Hvalid, Hparses. reflexivity.
Qed.

Ltac new_request :=
  match goal with
  | |- context [Http.NewRequest ?m ?u ?b] =>
      let e := fresh "e" in
      let m' := fresh "m" in
      destruct (NewRequest_cases m u b) as [[e ->] | [m' ->]]
  end.

Lemma mergo_Merge_fields_merged_over (dst src : Options) :
  merged_over src dst (mergo_Merge_fields dst src).
Proof.
  unfold merged_over, mergo_Merge_fields; simpl.
  repeat split; intros Hf; case_decide; congruence.
Qed.

Lemma load_insert (w : World) (p : nat) (o : Options) (s : list Request) (cl : list nat) :
  (p < length (heap w))%nat ->
  load {| heap := <[p := o]> (heap w); sent := s; closed := cl |} p = o.
Proof.
  intros Hp. unfold load; simpl. rewrite list_lookup_insert_eq by assumption. reflexivity.
Qed.

(** On a rooted path [getURL] returns the base URL followed by the path. *)
Lemma getURL_rooted (c : Client) (path : string) :
  rooted path = true -> getURL c path = Returns (BaseURL c ++ path).
Proof.
  unfold getURL, rooted. destruct path as [|c0 rest]; [discriminate|].
  destruct (Ascii.eqb_spec c0 "/") as [->|Hne]; [reflexivity|].
  intros Hrooted. exfalso.
  destruct c0 as [[] [] [] [] [] [] [] []]; try discriminate. apply Hne. reflexivity.
Qed.

Section do.
Context {T D : Type} `{Payload T} `{Unmarshal D}.
Variables (c : Client) (method path : string) (data : option T) (result : option D).

(** What a write call sends is one request at most, and its body holds
    the options of the first pointer merged over the defaults. *)
Lemma do_sent (p : nat) (rest : list (option nat)) (w : World) :
  (p < length (heap w))%nat ->
  sent (fst (do c method path data result (Some (Some p :: rest)) w)) = sent w \/
  exists request j,
    sent (fst (do c method path data result (Some (Some p :: rest)) w))
    = (sent w ++ [request])%list /\
    Body request = JSONBody j (mergo_Merge_fields (load w p) (DefaultOptions c)).
Proof.
  intros Hp. unfold do. go_unfold.
  destruct (validate data) as [e|]; simpl; [left; reflexivity|].
  rewrite load_insert by assumption.
  unfold json_Marshal_request.
  destruct data as [x|]; [destruct (json_Marshal x) as [j|e]|]; simpl;
    try (left; reflexivity).
  all: destruct (getURL c path) as [url|msg]; simpl; try (left; reflexivity).
  all: new_request; simpl; try (left; reflexivity).
  all: right; eexists _, _.
  all: match goal with
       | |- context [HTTPClient c ?h ?r] => destruct (HTTPClient c h r) as [resp|e]
       end; simpl.
  all: try match goal with
       | |- context [parseResponse c ?r ?d] => destruct (parseResponse c r d) as [? [? ?]]
       end; simpl.
  all: split; [reflexivity|]; unfold fastAPI; destruct (FastAPI c); reflexivity.
Qed.

End do.

(** C1.  In a write call the options that the request carries are the
    call's options [B] merged over the client defaults [A]: a field that
    the caller set in [B] keeps [B]'s value, a field unset in [B] takes
    [A]'s, so that no field the caller set is dropped.  There is one such
    value [M]: every request that the call hands to the HTTP client carries
    it; and a [POST] or a [PUT] on a rooted path that makes a URL, with a
    payload that passes validation and is marshalled to [j], does hand the
    HTTP client one request, of that method and URL, whose body is [j] with
    the options [M]. *)
Theorem do_merges_options_over_defaults {T D : Type} `{Payload T} `{Unmarshal D}
    (c : Client) (method path : string) (data : option T) (result : option D)
    (p : nat) (rest : list (option nat)) (w : World) :
  (p < length (heap w))%nat ->
  exists M : Options,
    merged_over (DefaultOptions c) (load w p) M /\
    (forall request,
        sent (fst (do c method path data result (Some (Some p :: rest)) w))
        = (sent w ++ [request])%list ->
        exists j, Body request = JSONBody j M) /\
    (forall j,
        method = "POST" \/ method = "PUT" ->
        rooted path = true ->
        Http.parses (BaseURL c ++ path) = true ->
        validate data = None ->
        json_Marshal_request data M = inl (JSONBody j M) ->
        exists request,
          sent (fst (do c method path data result (Some (Some p :: rest)) w))
          = (sent w ++ [request])%list /\
          Method request = method /\
          URL request = BaseURL c ++ path /\
          Body request = JSONBody j M).
Proof.
  intros Hp. exists (mergo_Merge_fields (load w p) (DefaultOptions c)).
  split; [apply mergo_Merge_fields_merged_over|]. split.
  - intros request Hsent.
    destruct (do_sent c method path data result p rest w Hp)
      as [Hsame | (r & j & Hone & Hbody)].
    + rewrite Hsame in Hsent. apply (f_equal length) in Hsent.
      rewrite length_app in Hsent. simpl in Hsent. lia.
    + rewrite Hone in Hsent. apply app_inj_tail in Hsent as [_ <-]. eauto.
  - intros j Hmethod Hrooted Hparses Hvalid Hmarshal.
    assert (Hm : method <> EmptyString /\ Http.validMethod method = true)
      by (destruct Hmethod as [-> | ->]; (split; [discriminate|reflexivity])).
    destruct Hm as [Hne Htoken].
    unfold do. go_unfold. rewrite Hvalid. simpl.
    rewrite load_insert by assumption. rewrite Hmarshal. simpl.
    rewrite (getURL_rooted c path Hrooted). simpl.
    rewrite NewRequest_ok by assumption. simpl.
    eexists. split.
    + destruct (HTTPClient c _ _) as [resp|e]; simpl; [|reflexivity].
      destruct (parseResponse c resp result) as [r' [value e]]; reflexivity.
    + unfold fastAPI. destruct (FastAPI c); repeat split; reflexivity.
Qed.

Lemma do_merges_options_over_defaults_witness :
  (0 < length (heap (world_with options_10)))%nat /\
  exists request,
    sent (fst (do (client_answering defaults_50 created) "POST" "/projects"
                  (Some {| Named_name := "Launch" |}) (Some some_project)
                  (Some [Some 0%nat]) (world_with options_10)))
    = [request] /\
    Method request = "POST" /\
    URL request = "https://app.asana.com/api/1.0/projects" /\
    Body request
    = JSONBody (JObject [("name", JString "Launch")])
               {| Limit := 10; Offset := EmptyString; Fields := ["name"; "notes"] |}.
Proof.
  assert (Hp : (0 < length (heap (world_with options_10)))%nat) by (simpl; lia).
  split; [exact Hp|].
  destruct (do_merges_options_over_defaults
              (client_answering defaults_50 created) "POST" "/projects"
              (Some {| Named_name := "Launch" |}) (Some some_project) 0%nat []
              (world_with options_10) Hp)
    as (M & (Hlimit & _ & _ & Hoffset & _ & Hfields) & _ & Hsends).
  assert (HM : M = {| Limit := 10; Offset := EmptyString; Fields := ["name"; "notes"] |}).
  { destruct M as [limit offset fields]. simpl in Hlimit, Hoffset, Hfields.
    rewrite (Hlimit ltac:(discriminate)), (Hoffset eq_refl), (Hfields eq_refl).
    reflexivity. }
  subst M.
  exact (Hsends (JObject [("name", JString "Launch")])
                (or_introl eq_refl) eq_refl eq_refl eq_refl eq_refl).
Defined.

(** The request of that call, and what the call leaves in the world. *)
Example post_launch :
  post (client_answering defaults_50 created) "/projects"
       (Some {| Named_name := "Launch" |}) (Some some_project)
       (Some [Some 0%nat]) (world_with options_10)
  = ({| heap := [{| Limit := 10; Offset := EmptyString; Fields := ["name"; "notes"] |}];
        sent := [{| Method := "POST";
                    URL := "https://app.asana.com/api/1.0/projects";
                    Header := [("Content-Type", "application/json"); ("Asana-Fast-Api", "true")];
                    Body := JSONBody (JObject [("name", JString "Launch")])
                              {| Limit := 10; Offset := EmptyString;
                                 Fields := ["name"; "notes"] |} |}];
        closed := [] |},
     Returns (Some {| ID := "12"; Name := "Launch" |}, None)).
Proof. vm_compute. reflexivity. Qed.

(** C10.  A write call reads the first of the supplied options only: what
    follows it changes nothing.  A read call merges them all: here the
    second one overrides the page size of the first and adds an offset. *)
Theorem do_uses_first_options_only :
  (forall (T D : Type) (HT : Payload T) (HD : Unmarshal D) (c : Client) (method path : string)
          (data : option T) (result : option D) (first : option nat)
          (rest : list (option nat)) (w : World),
      do c method path data result (Some (first :: rest)) w
      = do c method path data result (Some [first]) w) /\
  map URL (sent (fst (get (client_answering Options_zero created) "/projects"
                          (None : option Empty_set) (Some some_project)
                          (Some [Some 0%nat])
                          {| heap := [options_10; options_20_x]; sent := []; closed := [] |})))
  = ["https://app.asana.com/api/1.0/projects?limit=10"] /\
  map URL (sent (fst (get (client_answering Options_zero created) "/projects"
                          (None : option Empty_set) (Some some_project)
                          (Some [Some 0%nat; Some 1%nat])
                          {| heap := [options_10; options_20_x]; sent := []; closed := [] |})))
  = ["https://app.asana.com/api/1.0/projects?limit=20&offset=x"].
Proof.
  split; [|split].
  - intros. reflexivity.
  - vm_compute. reflexivity.
  - vm_compute. reflexivity.
Qed.

(** ** What a call leaves of the caller's options *)

(** A read call stores through no pointer and closes nothing. *)
Lemma get_heap_unchanged {T D : Type} `{Payload T} `{Unmarshal D}
    (c : Client) (path : string) (data : option T) (result : option D)
    (opts : slice (option nat)) (w : World) :
  heap (fst (get c path data result opts w)) = heap w /\
  closed (fst (get c path data result opts w)) = closed w.
Proof.
  unfold get. go_unfold.
  destruct (get_query c data _) as [q [e|]]; simpl; [split; reflexivity|].
  destruct (getURL c _) as [url|msg]; simpl; [|split; reflexivity].
  new_request; simpl; [split; reflexivity|].
  destruct (HTTPClient c _ _) as [resp|e']; simpl; [|split; reflexivity].
  destruct (parseResponse c resp result) as [r' [[value|] [e|]]]; simpl; split; reflexivity.
Qed.

(** A write call stores the merged options through the first pointer: the
    caller's value is overwritten by the merge. *)
Lemma do_overwrites_options {T D : Type} `{Payload T} `{Unmarshal D}
    (c : Client) (method path : string) (data : option T) (result : option D)
    (p : nat) (rest : list (option nat)) (w : World) :
  (p < length (heap w))%nat ->
  load (fst (do c method path data result (Some (Some p :: rest)) w)) p
  = mergo_Merge_fields (load w p) (DefaultOptions c).
Proof.
  intros Hp. unfold do. go_unfold.
  destruct (validate data) as [e|]; simpl; [apply load_insert, Hp|].
  rewrite load_insert by assumption.
  destruct (json_Marshal_request data _) as [body|e]; simpl; [|apply load_insert, Hp].
  destruct (getURL c path) as [url|msg]; simpl; [|apply load_insert, Hp].
  new_request; simpl; [apply load_insert, Hp|].
  destruct (HTTPClient c _ _) as [resp|e']; simpl; [|apply load_insert, Hp].
  destruct (parseResponse c resp result) as [r' [value e]]; simpl. apply load_insert, Hp.
Qed.

(** C7.  The code at a write call whose caller passes a pointer to an
    [Options] without a page size, under defaults with a page size of 50:
    after the call the caller's [Options] holds the defaults. *)
Theorem post_overwrites_caller_options :
  heap (world_with Options_zero) = [Options_zero] /\
  heap (fst (post (client_answering defaults_50 created) "/projects"
                  (Some {| Named_name := "Launch" |}) (Some some_project)
                  (Some [Some 0%nat]) (world_with Options_zero)))
  = [defaults_50].
Proof. split; [reflexivity|]. vm_compute. reflexivity. Qed.

(** ** Validation *)

(** A read call whose payload fails its validation returns that error and
    leaves the world as it was: no request is issued. *)
Lemma get_validation_aborts {T D : Type} `{Payload T} `{Unmarshal D}
    (c : Client) (path : string) (data : option T) (result : option D)
    (opts : slice (option nat)) (w : World) (e : Error) :
  validate data = Some e ->
  get c path data result opts w = (w, Returns (result, (None, Some e))).
Proof.
  intros Hval. unfold get. go_unfold. unfold get_query.
  destruct (query_Values (DefaultOptions c)) as [q0 [e0|]] eqn:Hq0.
  { unfold query_Values, QueryEncoder_Options in Hq0. discriminate. }
  destruct data as [x|]; [|discriminate]. rewrite Hval. reflexivity.
Qed.

(** A write call whose payload fails its validation returns that error
    without issuing a request and without closing anything. *)
Lemma do_validation_aborts {T D : Type} `{Payload T} `{Unmarshal D}
    (c : Client) (method path : string) (data : option T) (result : option D)
    (first : option nat) (rest : list (option nat)) (w : World) (e : Error) :
  validate data = Some e ->
  snd (do c method path data result (Some (first :: rest)) w) = Returns (result, Some e) /\
  sent (fst (do c method path data result (Some (first :: rest)) w)) = sent w /\
  closed (fst (do c method path data result (Some (first :: rest)) w)) = closed w.
Proof.
  intros Hval. unfold do. go_unfold.
  destruct first as [p|]; simpl; rewrite Hval; simpl; repeat split; reflexivity.
Qed.

(** C6.  The code at a write call whose payload fails its validation,
    with a pointer to an [Options] without a page size and defaults with a
    page size of 50: the call returns the validation error and issues no
    request, but the caller's [Options] holds the defaults afterwards. *)
Theorem post_invalid_payload_overwrites_options :
  validate (Some {| Named_name := EmptyString |}) = Some (ErrorString "name is required") /\
  post (client_answering defaults_50 created) "/projects"
       (Some {| Named_name := EmptyString |}) (Some some_project)
       (Some [Some 0%nat]) (world_with Options_zero)
  = ({| heap := [defaults_50]; sent := []; closed := [] |},
     Returns (Some some_project, Some (ErrorString "name is required"))) /\
  world_with Options_zero = {| heap := [Options_zero]; sent := []; closed := [] |}.
Proof. split; [reflexivity|]. split; [vm_compute; reflexivity|reflexivity]. Qed.

(** ** Paths *)

Lemma getURL_unrooted (c : Client) (path : string) :
  rooted path = false -> exists msg, getURL c path = Panics msg.
Proof.
  unfold getURL, rooted. destruct path as [|c0 rest]; [eauto|].
  destruct (Ascii.eqb_spec c0 "/") as [->|Hne]; [discriminate|eauto].
Qed.

Lemma rooted_app (path suffix : string) :
  rooted path = false -> rooted (path ++ "?" ++ suffix) = false.
Proof. destruct path as [|c0 rest]; intros Hr; [reflexivity|exact Hr]. Qed.

Lemma CreateSection_path_unrooted (p : Project) : rooted (CreateSection_path p) = false.
Proof. reflexivity. Qed.

(** A read call that gets as far as building the URL panics on a path
    that is not rooted. *)
Lemma get_unrooted_panics {T D : Type} `{Payload T} `{Unmarshal D}
    (c : Client) (path : string) (data : option T) (result : option D)
    (opts : slice (option nat)) (w : World) :
  rooted path = false ->
  snd (get_query c data (map (fmap (load w)) (range opts))) = None ->
  exists msg, get c path data result opts w = (w, Panics msg).
Proof.
  intros Hpath Hq. unfold get. go_unfold.
  destruct (get_query c data _) as [q [e|]]; [discriminate|]. simpl.
  assert (Hpath' : rooted (if (0 <? size q)%nat then path ++ "?" ++ Url.Encode q else path)
                   = false).
  { destruct (0 <? size q)%nat; [apply rooted_app|]; exact Hpath. }
  destruct (getURL_unrooted c _ Hpath') as [msg ->]. eauto.
Qed.

(** So does a write call, once the payload is validated and marshalled. *)
Lemma do_unrooted_panics {T D : Type} `{Payload T} `{Unmarshal D}
    (c : Client) (method path : string) (data : option T) (result : option D)
    (opts : slice (option nat)) (w : World) :
  rooted path = false ->
  validate data = None ->
  (forall options e, json_Marshal_request data options <> inr e) ->
  exists msg, snd (do c method path data result opts w) = Panics msg.
Proof.
  intros Hpath Hval Hmarshal. unfold do. go_unfold.
  destruct (getURL_unrooted c _ Hpath) as [msg Hmsg].
  destruct opts as [[|[p|] rest]|]; simpl; eauto; rewrite Hval; simpl.
  all: match goal with
       | |- context [json_Marshal_request ?d ?o] =>
           destruct (json_Marshal_request d o) as [body|e] eqn:Hbody;
           [|exfalso; exact (Hmarshal _ _ Hbody)]
       end; simpl; rewrite Hmsg; eauto.
Qed.

(** An upload always gets as far as building the URL. *)
Lemma postMultipart_unrooted_panics {D : Type} `{Unmarshal D}
    (c : Client) (boundary path : string) (result : option D) (field : string)
    (r : ReadCloser) (filename contentType : string) (w : World) :
  rooted path = false ->
  exists msg,
    postMultipart c boundary path result field r filename contentType w
    = (Close r w, Panics msg).
Proof.
  intros Hpath. unfold postMultipart, Multipart.CreatePart, Multipart.Close. go_unfold.
  destruct (getURL_unrooted c _ Hpath) as [msg ->]. eauto.
Qed.

(** C8 (as amended).  On a path that does not begin with a slash the URL
    construction panics, and with it every upload, every write call whose
    payload is validated and marshalled, and every read call whose query
    parameters are built; on a path that begins with a slash it returns
    the base URL with the path appended. *)
Theorem getURL_requires_rooted_path (c : Client) (path : string) :
  rooted path = false ->
  (exists msg, getURL c path = Panics msg) /\
  (forall (D : Type) (HD : Unmarshal D) boundary (result : option D) field r filename
          contentType w,
      exists msg,
        snd (postMultipart c boundary path result field r filename contentType w)
        = Panics msg) /\
  (forall (T D : Type) (HT : Payload T) (HD : Unmarshal D) method (data : option T)
          (result : option D) opts w,
      validate data = None ->
      (forall options e, json_Marshal_request data options <> inr e) ->
      exists msg, snd (do c method path data result opts w) = Panics msg) /\
  (forall (T D : Type) (HT : Payload T) (HD : Unmarshal D) (data : option T)
          (result : option D) opts w,
      snd (get_query c data (map (fmap (load w)) (range opts))) = None ->
      exists msg, snd (get c path data result opts w) = Panics msg) /\
  (forall rootedPath,
      rooted rootedPath = true -> getURL c rootedPath = Returns (BaseURL c ++ rootedPath)).
Proof.
  intros Hpath. split; [apply getURL_unrooted, Hpath|]. split; [|split; [|split]].
  - intros. destruct (postMultipart_unrooted_panics c boundary path result field r
                        filename contentType w Hpath) as [msg ->]. eauto.
  - intros. apply do_unrooted_panics; assumption.
  - intros T D HT HD data result opts w Hq.
    destruct (get_unrooted_panics c path data result opts w Hpath Hq) as [msg ->]. eauto.
  - intros. apply getURL_rooted. assumption.
Qed.

(** The path of [CreateSection]: the call panics. *)
Lemma getURL_requires_rooted_path_witness :
  rooted (CreateSection_path some_project) = false /\
  exists msg,
    snd (post (client_answering Options_zero created) (CreateSection_path some_project)
              (Some {| Named_name := "Backlog" |}) (Some some_project) None no_world)
    = Panics msg.
Proof.
  assert (Hpath : rooted (CreateSection_path some_project) = false) by reflexivity.
  split; [exact Hpath|].
  destruct (getURL_requires_rooted_path (client_answering Options_zero created)
              (CreateSection_path some_project) Hpath) as (_ & _ & Hdo & _).
  apply (Hdo Named Project _ _ "POST").
  - reflexivity.
  - intros options e. discriminate.
Defined.

(** C8 (as stated) fails: a write call on a path without a leading slash
    whose payload fails its validation returns the validation error and
    does not panic. *)
Lemma getURL_requires_rooted_path_counterexample :
  rooted "projects" = false /\
  snd (post (client_answering Options_zero created) "projects"
            (Some {| Named_name := EmptyString |}) (Some some_project) None no_world)
  = Returns (Some some_project, Some (ErrorString "name is required")) /\
  ~ (exists msg,
        snd (post (client_answering Options_zero created) "projects"
                  (Some {| Named_name := EmptyString |}) (Some some_project) None no_world)
        = Panics msg).
Proof.
  split; [reflexivity|].
  assert (Hrun : snd (post (client_answering Options_zero created) "projects"
                           (Some {| Named_name := EmptyString |}) (Some some_project) None
                           no_world)
                 = Returns (Some some_project, Some (ErrorString "name is required")))
    by (vm_compute; reflexivity).
  split; [exact Hrun|]. rewrite Hrun. intros [msg [=]].
Qed.

(** The request of a read call carries the query mapping, encoded, after
    the path. *)
Lemma get_request {T D : Type} `{Payload T} `{Unmarshal D}
    (c : Client) (path : string) (data : option T) (result : option D)
    (opts : slice (option nat)) (w : World) (q : Values) :
  get_query c data (map (fmap (load w)) (range opts)) = (q, None) ->
  rooted path = true ->
  Http.parses (BaseURL c ++ (if (0 <? size q)%nat then path ++ "?" ++ Url.Encode q else path))
  = true ->
  exists request,
    sent (fst (get c path data result opts w)) = (sent w ++ [request])%list /\
    Method request = "GET" /\
    URL request
    = BaseURL c ++ (if (0 <? size q)%nat then path ++ "?" ++ Url.Encode q else path) /\
    Body request = NoBody.
Proof.
  intros Hq Hrooted Hparses. unfold get. go_unfold. rewrite Hq. simpl.
  assert (Hrooted' : rooted (if (0 <? size q)%nat then path ++ "?" ++ Url.Encode q else path)
                     = true).
  { destruct (0 <? size q)%nat; [|exact Hrooted].
    destruct path as [|c0 rest]; [discriminate|exact Hrooted]. }
  rewrite (getURL_rooted c _ Hrooted'). simpl.
  rewrite NewRequest_ok by (assumption || discriminate || reflexivity). simpl.
  eexists. split.
  - destruct (HTTPClient c _ _) as [resp|e]; simpl; [|reflexivity].
    destruct (parseResponse c resp result) as [r' [[value|] [e|]]]; reflexivity.
  - unfold fastAPI. destruct (FastAPI c); repeat split; reflexivity.
Qed.

(** ** Uploads *)

Lemma substring_all (s : string) : substring 0 (String.length s) s = s.
Proof. induction s as [|ch s IH]; simpl; [reflexivity|]. rewrite IH. reflexivity. Qed.

Lemma substring_prefix (a b : string) : substring 0 (String.length a) (a ++ b) = a.
Proof.
  induction a as [|ch a IH]; simpl.
  - destruct b; reflexivity.
  - rewrite IH. reflexivity.
Qed.

Lemma substring_suffix (a b : string) :
  substring (String.length a) (String.length (a ++ b) - String.length a) (a ++ b) = b.
Proof.
  induction a as [|ch a IH]; simpl.
  - rewrite Nat.sub_0_r. apply substring_all.
  - exact IH.
Qed.

Lemma append_assoc (a b d : string) : (a ++ b) ++ d = a ++ b ++ d.
Proof.
  induction a as [|ch a IH]; [reflexivity|].
  change (String ch ((a ++ b) ++ d) = String ch (a ++ b ++ d)). rewrite IH. reflexivity.
Qed.

Lemma append_empty_l (a : string) : EmptyString ++ a = a.
Proof. reflexivity. Qed.

Lemma header_keys (disposition contentType : string) :
  merge_sort (fun a b => Is_true (String.leb a b))
    (map fst (map_to_list
                (Multipart.Header_Set
                   (Multipart.Header_Set (∅ : Multipart.MIMEHeader)
                      "Content-Disposition" disposition)
                   "Content-Type" contentType)))
  = ["Content-Disposition"; "Content-Type"].
Proof. vm_compute. reflexivity. Qed.

(** The buffer after [CreatePart] and [Close] is the header followed by
    the footer. *)
Lemma CreatePart_buffer (boundary field filename contentType : string) :
  Multipart.buffer
    (fst (Multipart.CreatePart (Multipart.NewWriter boundary)
            (Multipart.Header_Set
               (Multipart.Header_Set (∅ : Multipart.MIMEHeader) "Content-Disposition"
                  ("form-data; name=" ++ Multipart.DQUOTE ++ escapeQuotes field
                   ++ Multipart.DQUOTE ++ "; filename=" ++ Multipart.DQUOTE
                   ++ escapeQuotes filename ++ Multipart.DQUOTE))
               "Content-Type" contentType)))
  = multipart_header boundary field filename contentType.
Proof.
  unfold Multipart.CreatePart. rewrite header_keys.
  unfold Multipart.Header_Set, multipart_header. cbn [flat_map app map].
  rewrite lookup_insert_ne by discriminate.
  rewrite !lookup_insert_eq. cbn [default map app String.concat Multipart.NewWriter
    Multipart.lastpart Multipart.buffer Multipart.boundary fst].
  cbn [id map app String.concat].
  rewrite ?append_assoc, ?append_empty_l. reflexivity.
Qed.

Section postMultipart.
Context {D : Type} `{Unmarshal D}.
Variables (c : Client) (boundary path : string) (result : option D) (field : string)
  (r : ReadCloser) (filename contentType : string) (w : World).

(** The writer after [CreatePart] and after [Close]. *)
Lemma CreatePart_Close :
  exists header_written closed_writer,
    Multipart.CreatePart (Multipart.NewWriter boundary)
      (Multipart.Header_Set
         (Multipart.Header_Set (∅ : Multipart.MIMEHeader) "Content-Disposition"
            ("form-data; name=" ++ Multipart.DQUOTE ++ escapeQuotes field
             ++ Multipart.DQUOTE ++ "; filename=" ++ Multipart.DQUOTE
             ++ escapeQuotes filename ++ Multipart.DQUOTE))
         "Content-Type" contentType)
    = (header_written, None) /\
    Multipart.buffer header_written = multipart_header boundary field filename contentType /\
    Multipart.Close header_written = (closed_writer, None) /\
    Multipart.buffer closed_writer
    = multipart_header boundary field filename contentType ++ multipart_footer boundary.
Proof.
  pose proof (CreatePart_buffer boundary field filename contentType) as Hbuf.
  destruct (Multipart.CreatePart _ _) as [pw err] eqn:Hcreate.
  assert (err = None) as -> by (unfold Multipart.CreatePart in Hcreate; congruence).
  assert (Multipart.boundary pw = boundary) as Hb
    by (unfold Multipart.CreatePart in Hcreate; injection Hcreate as <-; reflexivity).
  simpl in Hbuf. exists pw, (fst (Multipart.Close pw)).
  split; [reflexivity|]. split; [exact Hbuf|]. split; [reflexivity|].
  unfold Multipart.Close. simpl. rewrite Hbuf, Hb. reflexivity.
Qed.

(** The three readers of the body: the header bytes, the stream, the
    footer bytes. *)
Lemma postMultipart_slices (header footer : string) :
  substring 0 (String.length header) (header ++ footer) ++ content r
  ++ substring (String.length header)
       (String.length (header ++ footer) - String.length header) (header ++ footer)
  = header ++ content r ++ footer.
Proof. rewrite substring_prefix, substring_suffix. reflexivity. Qed.

(** Every exit of the call leaves exactly one more [Close] of the stream,
    and at most one more request, whose body is the header, the content of
    the stream and the footer. *)
Lemma postMultipart_effects :
  closed (fst (postMultipart c boundary path result field r filename contentType w))
  = (closed w ++ [handle r])%list /\
  (sent (fst (postMultipart c boundary path result field r filename contentType w)) = sent w \/
   exists request,
     sent (fst (postMultipart c boundary path result field r filename contentType w))
     = (sent w ++ [request])%list /\
     Body request
     = StreamBody (multipart_header boundary field filename contentType
                   ++ content r ++ multipart_footer boundary)).
Proof.
  unfold postMultipart.
  destruct CreatePart_Close as (pw & pw' & -> & Hheader & Hclose & Hbytes).
  rewrite Hclose, Hbytes, Hheader, postMultipart_slices. go_unfold.
  destruct (getURL c path) as [url|msg]; simpl; [|split; [reflexivity|left; reflexivity]].
  new_request; simpl; [split; [reflexivity|left; reflexivity]|].
  destruct (HTTPClient c _ _) as [resp|e']; simpl.
  - destruct (parseResponse c resp result) as [r' [value e]]; simpl.
    split; [reflexivity|]. right. eexists. split; [reflexivity|].
    unfold fastAPI. destruct (FastAPI c); reflexivity.
  - split; [reflexivity|]. right. eexists. split; [reflexivity|].
    unfold fastAPI. destruct (FastAPI c); reflexivity.
Qed.

(** On a rooted path that makes a URL, the request is issued. *)
Lemma postMultipart_sends :
  rooted path = true ->
  Http.parses (BaseURL c ++ path) = true ->
  exists request,
    sent (fst (postMultipart c boundary path result field r filename contentType w))
    = (sent w ++ [request])%list.
Proof.
  intros Hrooted Hparses. unfold postMultipart.
  destruct CreatePart_Close as (pw & pw' & -> & Hheader & -> & Hbytes). go_unfold.
  rewrite (getURL_rooted c path Hrooted). simpl.
  rewrite NewRequest_ok by (assumption || discriminate || reflexivity). simpl.
  destruct (HTTPClient c _ _) as [resp|e]; simpl; [|eauto].
  destruct (parseResponse c resp result) as [r' [value e]]; simpl. eauto.
Qed.

End postMultipart.

(** C9.  The upload of a zero-length stream: on every exit of the call the
    stream has been closed exactly once; a request that the call issues has
    for body the MIME header followed at once by the closing boundary (the
    empty content between them); and on a rooted path that makes a URL the
    request is issued. *)
Theorem postMultipart_empty_stream {D : Type} `{Unmarshal D}
    (c : Client) (boundary path : string) (result : option D) (field : string)
    (r : ReadCloser) (filename contentType : string) (w : World) :
  content r = EmptyString ->
  closed (fst (postMultipart c boundary path result field r filename contentType w))
  = (closed w ++ [handle r])%list /\
  (forall request,
      sent (fst (postMultipart c boundary path result field r filename contentType w))
      = (sent w ++ [request])%list ->
      Body request
      = StreamBody (multipart_header boundary field filename contentType
                    ++ EmptyString ++ multipart_footer boundary)) /\
  (rooted path = true -> Http.parses (BaseURL c ++ path) = true ->
   exists request,
     sent (fst (postMultipart c boundary path result field r filename contentType w))
     = (sent w ++ [request])%list).
Proof.
  intros Hempty.
  destruct (postMultipart_effects c boundary path result field r filename contentType w)
    as [Hclosed Hsent].
  split; [exact Hclosed|]. split; [|apply postMultipart_sends].
  intros request Hrequest. destruct Hsent as [Hsame | (request' & Hone & Hbody)].
  - rewrite Hsame in Hrequest. apply (f_equal length) in Hrequest.
    rewrite length_app in Hrequest. simpl in Hrequest. lia.
  - rewrite Hone in Hrequest. apply app_inj_tail in Hrequest as [_ <-].
    rewrite Hbody, Hempty. reflexivity.
Qed.

Lemma postMultipart_empty_stream_witness :
  content empty_file = EmptyString /\
  closed (fst (postMultipart (client_answering Options_zero uploaded) "3f9a"
                 "/tasks/9/attachments" (Some some_project) "file" empty_file
                 "empty.txt" "text/plain" no_world))
  = [3%nat] /\
  exists request,
    sent (fst (postMultipart (client_answering Options_zero uploaded) "3f9a"
                 "/tasks/9/attachments" (Some some_project) "file" empty_file
                 "empty.txt" "text/plain" no_world))
    = [request] /\
    Body request
    = StreamBody (multipart_header "3f9a" "file" "empty.txt" "text/plain"
                  ++ EmptyString ++ multipart_footer "3f9a").
Proof.
  assert (Hempty : content empty_file = EmptyString) by reflexivity.
  split; [exact Hempty|].
  destruct (postMultipart_empty_stream (client_answering Options_zero uploaded) "3f9a"
              "/tasks/9/attachments" (Some some_project) "file" empty_file
              "empty.txt" "text/plain" no_world Hempty) as (Hclosed & Hbody & Hsends).
  split; [exact Hclosed|].
  destruct (Hsends eq_refl eq_refl) as [request Hrequest].
  exists request. split; [exact Hrequest|]. apply Hbody. exact Hrequest.
Defined.

(** The stream is closed once also when the call panics or fails. *)
Example postMultipart_panic_closes :
  postMultipart (client_answering Options_zero uploaded) "3f9a" "tasks/9/attachments"
    (Some some_project) "file" empty_file "empty.txt" "text/plain" no_world
  = ({| heap := []; sent := []; closed := [3%nat] |}, Panics "Invalid API path").
Proof. vm_compute. reflexivity. Qed.

(** ** Fetching all pages *)

Section AllProjects.
Variables (w : Workspace) (client : Client) (options : slice (option nat)).

Lemma AllProjects_loop_done (fuel : nat) (allProjects : list (option Project)) (world : World) :
  AllProjects_loop fuel w client options allProjects None world
  = (world, Returns (Some (allProjects, None))).
Proof. destruct fuel; reflexivity. Qed.

Lemma AllProjects_loop_step (fuel : nat) (allProjects : list (option Project))
    (cursor : NextPage) (world world' : World) items next err :
  fetch_page w client options cursor world = (world', Returns (items, next, err)) ->
  AllProjects_loop (S fuel) w client options allProjects (Some cursor) world
  = match err with
    | Some e => (world', Returns (Some ([], Some e)))
    | None => AllProjects_loop fuel w client options (allProjects ++ items)%list next world'
    end.
Proof.
  intros Hfetch. simpl. unfold mbind, Go_bind at 1. rewrite Hfetch.
  destruct err; reflexivity.
Qed.

(** The loop takes one round for each page fetched and appends the pages
    in their order. *)
Lemma AllProjects_loop_fetched cursor world pages last world' :
  pages_fetched w client options cursor world pages last world' ->
  forall fuel allProjects,
    AllProjects_loop (length pages + fuel) w client options allProjects cursor world
    = AllProjects_loop fuel w client options (allProjects ++ concat pages)%list last world'.
Proof.
  induction 1 as [cursor world | cursor world items next world' pages last world'' Hfetch _ IH];
    intros fuel allProjects.
  - simpl. rewrite app_nil_r. reflexivity.
  - simpl length. rewrite Nat.add_succ_l.
    rewrite (AllProjects_loop_step _ _ _ _ _ _ _ _ Hfetch).
    rewrite IH. simpl concat. rewrite app_assoc. reflexivity.
Qed.

End AllProjects.

(** C5.  When the page fetches of the loop succeed and return the pages
    [pages], the cursor being present after every page but the last, the
    call returns the concatenation of the pages in their order and stops
    in the world that the last fetch left (no further request).  When a
    fetch fails after some pages, the call returns that error and no
    projects. *)
Theorem AllProjects_accumulates_or_fails (w : Workspace) (client : Client)
    (options : slice (option nat)) (world : World) (pages : list (list (option Project)))
    (last : option NextPage) (world' : World) :
  pages_fetched w client options (Some NextPage_zero) world pages last world' ->
  (last = None ->
   forall fuel, (length pages <= fuel)%nat ->
     AllProjects fuel w client options world
     = (world', Returns (Some (concat pages, None)))) /\
  (forall cursor items next e world'',
      last = Some cursor ->
      fetch_page w client options cursor world' = (world'', Returns (items, next, Some e)) ->
      forall fuel, (length pages < fuel)%nat ->
        AllProjects fuel w client options world
        = (world'', Returns (Some ([], Some e)))).
Proof.
  intros Hpages. split.
  - intros -> fuel Hfuel. unfold AllProjects.
    replace fuel with (length pages + (fuel - length pages))%nat by lia.
    rewrite (AllProjects_loop_fetched _ _ _ _ _ _ _ _ Hpages).
    apply AllProjects_loop_done.
  - intros cursor items next e world'' -> Hfetch fuel Hfuel. unfold AllProjects.
    replace fuel with (length pages + S (fuel - length pages - 1))%nat by lia.
    rewrite (AllProjects_loop_fetched _ _ _ _ _ _ _ _ Hpages).
    rewrite (AllProjects_loop_step _ _ _ _ _ _ _ _ _ _ _ Hfetch). reflexivity.
Qed.

(** The spec's example: three pages under the offsets [a], [b] and none. *)
Lemma AllProjects_accumulates_or_fails_witness :
  exists world',
    pages_fetched workspace_77 client_three_pages None (Some NextPage_zero) no_world
                  [page_1; page_2; page_3] None world' /\
    AllProjects 3 workspace_77 client_three_pages None no_world
    = (world', Returns (Some ((page_1 ++ page_2 ++ page_3)%list, None))) /\
    map URL (sent world')
    = ["https://app.asana.com/api/1.0/workspaces/77/projects?limit=100";
       "https://app.asana.com/api/1.0/workspaces/77/projects?limit=100&offset=a";
       "https://app.asana.com/api/1.0/workspaces/77/projects?limit=100&offset=b"].
Proof.
  eexists.
  assert (Hpages : pages_fetched workspace_77 client_three_pages None (Some NextPage_zero)
                     no_world [page_1; page_2; page_3] None
                     (fst (AllProjects 3 workspace_77 client_three_pages None no_world))).
  { eapply pages_fetched_more; [vm_compute; reflexivity|].
    eapply pages_fetched_more; [vm_compute; reflexivity|].
    eapply pages_fetched_more; [vm_compute; reflexivity|].
    vm_compute. apply pages_fetched_none. }
  split; [exact Hpages|]. split.
  - destruct (AllProjects_accumulates_or_fails _ _ _ _ _ _ _ Hpages) as [Hall _].
    rewrite (Hall eq_refl 3%nat) by (simpl; lia). reflexivity.
  - vm_compute. reflexivity.
Defined.

(** A connection that breaks at the second page: the first page is not
    returned. *)
Example AllProjects_breaking :
  snd (AllProjects 3 workspace_77 client_breaking None no_world)
  = Returns (Some ([], Some (Wrapped (ErrorString "connection reset by peer") "GET error"))).
Proof. vm_compute. reflexivity. Qed.

(** * Further properties *)

(** ** How a call runs *)

Lemma parseResponse_envelope {D : Type} `{Unmarshal D}
    (c : Client) (resp : HttpResponse) (result result' : option D) (value : option Response) :
  parseResponse c resp result = (result', (value, None)) ->
  exists v data,
    value = Some v /\ Data v = Some data /\ status_ok (StatusCode resp) = true /\
    json_Unmarshal (Some data) result = (result', None).
Proof.
  unfold parseResponse.
  destruct (ReadAll resp) as [body [e|]]; [intros [=]|].
  destruct (json_Unmarshal_into _ _) as [v [e|]]; [intros [=]|].
  destruct (status_ok (StatusCode resp)); [|intros [=]].
  destruct (Data v) as [data|] eqn:Hdata; [|intros [=]].
  unfold parseResponseData.
  destruct (json_Unmarshal (Some data) result) as [r' [e|]] eqn:Hdec; intros [= <- <-].
  exists v, data. auto.
Qed.

(** The three ways a read call runs: it returns an error before a request
    is built; or it panics on its path; or it hands one [GET] request to
    the HTTP client and returns what the answer decodes to. *)
Lemma get_run {T D : Type} `{Payload T} `{Unmarshal D}
    (c : Client) (path : string) (data : option T) (result : option D)
    (opts : slice (option nat)) (w : World) :
  (exists e, get c path data result opts w = (w, Returns (result, (None, Some e)))) \/
  (exists msg, rooted path = false /\ get c path data result opts w = (w, Panics msg)) \/
  (exists url,
      rooted path = true /\
      let request :=
        fastAPI c {| Method := "GET"; URL := BaseURL c ++ url; Header := []; Body := NoBody |} in
      get c path data result opts w
      = (sending w request,
         match HTTPClient c (sent w) request with
         | inr e => Returns (result, (None, Some (errors_Wrap e "GET error")))
         | inl resp =>
             match parseResponse c resp result with
             | (result', (_, Some e)) => Returns (result', (None, Some e))
             | (result', (Some value, None)) => Returns (result', (Resp_NextPage value, None))
             | (result', (None, None)) =>
                 Panics "invalid memory address or nil pointer dereference"
             end
         end)).
Proof.
  unfold get. go_unfold.
  destruct (get_query c data _) as [q [e|]]; simpl; [left; eauto|].
  set (path' := if (0 <? size q)%nat then path ++ "?" ++ Url.Encode q else path).
  assert (Hrooted : rooted path' = rooted path).
  { subst path'. destruct (0 <? size q)%nat; [|reflexivity]. destruct path; reflexivity. }
  destruct (rooted path) eqn:Hpath.
  - rewrite (getURL_rooted c path' Hrooted). simpl.
    destruct (NewRequest_cases "GET" (BaseURL c ++ path') NoBody) as [[e He] | [m Hm]].
    + rewrite He. simpl. left. eauto.
    + assert (m = "GET") as ->.
      { unfold Http.NewRequest in Hm. simpl in Hm.
        destruct (Http.parses _); [|discriminate]. congruence. }
      rewrite Hm. simpl. right. right. exists path'. split; [reflexivity|]. simpl.
      unfold sending.
      destruct (HTTPClient c _ _) as [resp|e]; simpl; [|reflexivity].
      destruct (parseResponse c resp result) as [r' [[value|] [e|]]]; reflexivity.
  - destruct (getURL_unrooted c path' Hrooted) as [msg ->]. simpl. right. left. eauto.
Qed.

(** The ways a write call runs, after the defaults were merged into its
    options: an error before a request is built; a panic on the path; or
    one request with the JSON body, and what the answer decodes to. *)
Lemma do_run {T D : Type} `{Payload T} `{Unmarshal D}
    (c : Client) (method path : string) (data : option T) (result : option D)
    (opts : slice (option nat)) (w : World) :
  opts <> Some [] ->
  (exists e,
      do c method path data result opts w
      = (snd (after_merge c opts w), Returns (result, Some e))) \/
  (exists msg,
      rooted path = false /\
      do c method path data result opts w = (snd (after_merge c opts w), Panics msg)) \/
  (exists m j,
      rooted path = true /\
      let request :=
        fastAPI c
          {| Method := m; URL := BaseURL c ++ path;
             Header := [("Content-Type", "application/json")];
             Body := JSONBody j (load (snd (after_merge c opts w))
                                      (fst (after_merge c opts w))) |} in
      do c method path data result opts w
      = (sending (snd (after_merge c opts w)) request,
         match HTTPClient c (sent w) request with
         | inr e => Returns (result, Some (errors_Wrap e (method ++ " error")))
         | inl resp =>
             Returns (fst (parseResponse c resp result),
                      snd (snd (parseResponse c resp result)))
         end)).
Proof.
  intros Hopts. unfold do, after_merge. go_unfold.
  destruct opts as [[|[p|] rest]|]; [congruence| | |]; simpl.
  all: destruct (validate data) as [e|]; simpl; [left; eauto|].
  all: match goal with
       | |- context [json_Marshal_request ?d ?o] =>
           destruct (json_Marshal_request d o) as [body|e] eqn:Hbody
       end; simpl; [|left; eauto].
  all: destruct (rooted path) eqn:Hpath;
    [rewrite (getURL_rooted _ path Hpath)
    |destruct (getURL_unrooted c path Hpath) as [msg ->]; simpl; right; left; eauto]; simpl.
  all: match goal with
       | |- context [Http.NewRequest ?m ?u ?b] =>
           destruct (NewRequest_cases m u b) as [[e ->] | [m' ->]]
       end; simpl; [left; eauto|].
  all: unfold json_Marshal_request in Hbody;
    destruct data as [x|]; [destruct (json_Marshal x) as [j|e]; [|discriminate]|];
    injection Hbody as <-.
  all: right; right; first [exists m', j | exists m', JNull]; split; [reflexivity|].
  all: unfold sending, fastAPI, Http.Header_Add, load; simpl.
  all: destruct (FastAPI _); simpl.
  all: match goal with
       | |- context [HTTPClient ?cc ?h ?r] => destruct (HTTPClient cc h r) as [resp|e]
       end; simpl; try reflexivity.
  all: destruct (parseResponse c resp result) as [r' [value e]]; reflexivity.
Qed.

(** ** Quoting in the upload header *)

Lemma append_cons (ch : ascii) (a b : string) : String ch a ++ b = String ch (a ++ b).
Proof. reflexivity. Qed.

Lemma quoted_string_plain (ch : ascii) (rest : string) :
  ch <> "034"%char -> ch <> "\"%char ->
  quoted_string (String ch rest)
  = match quoted_string rest with
    | Some (v, rest') => Some (String ch v, rest')
    | None => None
    end.
Proof.
  intros Hquote Hslash.
  destruct ch as [[] [] [] [] [] [] [] []]; try reflexivity; congruence.
Qed.

(** X1.  What [escapeQuotes] writes between two quotes is read back as it
    was: the reader of a quoted string stops at the closing quote that
    follows the escaped text, whatever quotes and backslashes the text
    holds, and returns the text.  So two different texts are never escaped
    to the same bytes. *)
Theorem escapeQuotes_read_back (s rest : string) :
  quoted_string (escapeQuotes s ++ Multipart.DQUOTE ++ rest) = Some (s, rest) /\
  (forall t, escapeQuotes s = escapeQuotes t -> s = t).
Proof.
  assert (Hread : forall s rest,
             quoted_string (escapeQuotes s ++ Multipart.DQUOTE ++ rest) = Some (s, rest)).
  { clear s rest. intros s rest. induction s as [|ch s IH]; [reflexivity|].
    cbn [escapeQuotes].
    destruct (Ascii.eqb_spec ch "\") as [->|Hslash].
    { rewrite !append_cons. cbn [quoted_string]. rewrite IH. reflexivity. }
    destruct (Ascii.eqb_spec ch "034") as [->|Hquote].
    { rewrite !append_cons. cbn [quoted_string]. rewrite IH. reflexivity. }
    rewrite append_cons, quoted_string_plain, IH by assumption. reflexivity. }
  split; [apply Hread|].
  intros t Heq. pose proof (Hread s EmptyString) as Hs. rewrite Heq, Hread in Hs.
  congruence.
Qed.

(** ** The request of an upload *)

Lemma CreatePart_Close_writer (boundary field filename contentType : string) :
  exists header_written closed_writer,
    Multipart.CreatePart (Multipart.NewWriter boundary)
      (Multipart.Header_Set
         (Multipart.Header_Set (∅ : Multipart.MIMEHeader) "Content-Disposition"
            ("form-data; name=" ++ Multipart.DQUOTE ++ escapeQuotes field
             ++ Multipart.DQUOTE ++ "; filename=" ++ Multipart.DQUOTE
             ++ escapeQuotes filename ++ Multipart.DQUOTE))
         "Content-Type" contentType)
    = (header_written, None) /\
    Multipart.buffer header_written = multipart_header boundary field filename contentType /\
    Multipart.Close header_written = (closed_writer, None) /\
    Multipart.buffer closed_writer
    = multipart_header boundary field filename contentType ++ multipart_footer boundary /\
    Multipart.FormDataContentType closed_writer
    = "multipart/form-data; boundary="
      ++ (if Multipart.ContainsAny_tspecials boundary
          then Multipart.DQUOTE ++ boundary ++ Multipart.DQUOTE else boundary).
Proof.
  pose proof (CreatePart_buffer boundary field filename contentType) as Hbuf.
  destruct (Multipart.CreatePart _ _) as [pw err] eqn:Hcreate.
  assert (err = None) as -> by (unfold Multipart.CreatePart in Hcreate; congruence).
  assert (Multipart.boundary pw = boundary) as Hb
    by (unfold Multipart.CreatePart in Hcreate; injection Hcreate as <-; reflexivity).
  simpl in Hbuf. exists pw, (fst (Multipart.Close pw)).
  split; [reflexivity|]. split; [exact Hbuf|]. split; [reflexivity|].
  unfold Multipart.Close, Multipart.FormDataContentType. simpl. rewrite Hbuf, Hb.
  split; reflexivity.
Qed.

(** X2.  On a rooted path that makes a URL, an upload hands exactly one
    request to the HTTP client: a [POST] to the base URL with the path
    appended, whose body is the MIME header, the bytes of the stream and
    the closing boundary, and whose content type names the boundary that
    the body uses (quoted when it holds a special byte); the fast API
    header follows when the client has it switched on.  The call stores
    through no pointer. *)
Theorem postMultipart_request {D : Type} `{Unmarshal D}
    (c : Client) (boundary path : string) (result : option D) (field : string)
    (r : ReadCloser) (filename contentType : string) (w : World) :
  rooted path = true ->
  Http.parses (BaseURL c ++ path) = true ->
  exists request,
    sent (fst (postMultipart c boundary path result field r filename contentType w))
    = (sent w ++ [request])%list /\
    Method request = "POST" /\
    URL request = BaseURL c ++ path /\
    Body request
    = StreamBody (multipart_header boundary field filename contentType
                  ++ content r ++ multipart_footer boundary) /\
    Header request
    = ("Content-Type",
       "multipart/form-data; boundary="
       ++ (if Multipart.ContainsAny_tspecials boundary
           then Multipart.DQUOTE ++ boundary ++ Multipart.DQUOTE else boundary))
      :: (if FastAPI c then [("Asana-Fast-Api", "true")] else []) /\
    heap (fst (postMultipart c boundary path result field r filename contentType w))
    = heap w.
Proof.
  intros Hrooted Hparses. unfold postMultipart.
  destruct (CreatePart_Close_writer boundary field filename contentType)
    as (pw & pw' & -> & Hheader & -> & Hbytes & Htype).
  rewrite Hbytes, Hheader, Htype, postMultipart_slices. go_unfold.
  rewrite (getURL_rooted c path Hrooted). simpl.
  rewrite NewRequest_ok by (assumption || discriminate || reflexivity). simpl.
  eexists. split; [|split; [|split; [|split; [|split]]]].
  - destruct (HTTPClient c _ _) as [resp|e]; simpl; [|reflexivity].
    destruct (parseResponse c resp result) as [r' [value e]]; reflexivity.
  - unfold fastAPI. destruct (FastAPI c); reflexivity.
  - unfold fastAPI. destruct (FastAPI c); reflexivity.
  - unfold fastAPI. destruct (FastAPI c); reflexivity.
  - unfold fastAPI. destruct (FastAPI c); reflexivity.
  - destruct (HTTPClient c _ _) as [resp|e]; simpl; [|reflexivity].
    destruct (parseResponse c resp result) as [r' [value e]]; reflexivity.
Qed.

Lemma postMultipart_request_witness :
  rooted "/tasks/9/attachments" = true /\
  Http.parses (BaseURL (client_answering Options_zero uploaded) ++ "/tasks/9/attachments")
  = true /\
  exists request,
    sent (fst (postMultipart (client_answering Options_zero uploaded) "3f 9a"
                 "/tasks/9/attachments" (Some some_project) "file" hello_file
                 "hello.txt" "text/plain" no_world))
    = [request] /\
    Body request
    = StreamBody (multipart_header "3f 9a" "file" "hello.txt" "text/plain"
                  ++ "hello" ++ multipart_footer "3f 9a") /\
    Header request
    = [("Content-Type", "multipart/form-data; boundary="
                        ++ Multipart.DQUOTE ++ "3f 9a" ++ Multipart.DQUOTE);
       ("Asana-Fast-Api", "true")].
Proof.
  split; [reflexivity|]. split; [reflexivity|].
  destruct (postMultipart_request (client_answering Options_zero uploaded) "3f 9a"
              "/tasks/9/attachments" (Some some_project) "file" hello_file
              "hello.txt" "text/plain" no_world eq_refl eq_refl)
    as (request & Hsent & _ & _ & Hbody & Hheader & _).
  exists request. split; [exact Hsent|]. split; [exact Hbody|exact Hheader].
Defined.

(** ** Destinations *)

(** X3.  With a [nil] destination the decoder never succeeds: whatever the
    response, it returns an error; for a response that would otherwise
    succeed (status 200 or 201, an envelope with data) the error is that of
    [json.Unmarshal] on [nil]. *)
Theorem parseResponse_nil_destination {D : Type} `{Unmarshal D}
    (c : Client) (resp : HttpResponse) :
  is_Some (snd (snd (parseResponse c resp (None : option D)))) /\
  fst (parseResponse c resp (None : option D)) = None /\
  (forall body value data,
      ReadAll resp = (body, None) ->
      json_Unmarshal_into (Json.parse body) Response_zero = (value, None) ->
      status_ok (StatusCode resp) = true ->
      Data value = Some data ->
      snd (snd (parseResponse c resp (None : option D))) = Some InvalidUnmarshalError).
Proof.
  unfold parseResponse.
  destruct (ReadAll resp) as [body [e|]]; simpl.
  { repeat split; eauto. intros ? ? ? [=]. }
  destruct (json_Unmarshal_into (Json.parse body) Response_zero) as [value [e|]] eqn:Hdec; simpl.
  { repeat split; eauto. intros ? ? ? [= <-]. rewrite Hdec. intros [=]. }
  destruct (status_ok (StatusCode resp)); simpl.
  - destruct (Data value) as [data|] eqn:Hdata; simpl.
    + repeat split; eauto.
    + repeat split; eauto. intros ? ? ? [= <-]. rewrite Hdec. intros [= <-] _.
      rewrite Hdata. intros [=].
  - repeat split; eauto. intros ? ? ? _ _ [=].
Qed.

(** ** Panics *)

(** X4.  Two run-time panics of the client's own code.  The read of
    [resultData.NextPage] after the decoder in a read call never meets a
    [nil] envelope: the decoder returns no error only together with an
    envelope, whose data are present, on a status 200 or 201.  The read of
    [opts[0]] in a write call panics on an options slice that is empty but
    not [nil], before the call has stored, validated or sent anything. *)
Theorem envelope_present_without_error {T D : Type} `{Payload T} `{Unmarshal D}
    (c : Client) :
  (forall (resp : HttpResponse) (result : option D),
      snd (snd (parseResponse c resp result)) = None ->
      exists value data,
        fst (snd (parseResponse c resp result)) = Some value /\
        Data value = Some data /\
        (StatusCode resp = 200 \/ StatusCode resp = 201)) /\
  (forall (method path : string) (data : option T) (result : option D) (w : World),
      do c method path data result (Some []) w
      = (w, Panics "runtime error: index out of range [0] with length 0")).
Proof.
  split.
  - intros resp result.
    destruct (parseResponse c resp result) as [result' [value [e|]]] eqn:Hparse; simpl;
      [discriminate|]. intros _.
    destruct (parseResponse_envelope c resp result result' value Hparse)
      as (v & data & -> & Hdata & Hstatus & _).
    exists v, data. split; [reflexivity|]. split; [exact Hdata|].
    apply status_ok_spec. exact Hstatus.
  - intros. reflexivity.
Qed.

(** ** The call sites *)

Lemma bind_returns {A B : Type} (m : Go A) (f : A -> Go B) (w : World) (a : A) :
  snd (m w) = Returns a -> (m ≫= f) w = f a (fst (m w)).
Proof.
  unfold mbind, Go_bind. destruct (m w) as [w' o]. simpl. intros ->. reflexivity.
Qed.

Lemma mergo_Merge_fields_zero (src : Options) : mergo_Merge_fields Options_zero src = src.
Proof. destruct src. reflexivity. Qed.

Lemma insert_new_cell (cells : list Options) (o o' : Options) :
  <[length cells := o']> (cells ++ [o])%list = (cells ++ [o'])%list.
Proof.
  replace (length cells) with (length cells + 0)%nat by lia.
  rewrite insert_app_r. reflexivity.
Qed.

(** X5.  [CreateProject], given a request that passes validation and is
    marshalled to [j], on a client whose base URL followed by [/projects]
    makes a URL, hands the HTTP client exactly one request: a [POST] of
    that URL with the JSON content type, whose body holds [j] as data and
    the client defaults as options.  It leaves the [Options] values of its
    caller as they were.  It returns the project that the answer was
    decoded into, starting from the empty project, with the error of the
    decoder; when the HTTP client fails, the empty project and the wrapped
    error. *)
Theorem CreateProject_request {T : Type} `{Payload T} (c : Client) (project : T)
    (j : json) (w : World) :
  validate (Some project) = None ->
  json_Marshal project = inl j ->
  Http.parses (BaseURL c ++ "/projects") = true ->
  let request :=
    fastAPI c {| Method := "POST"; URL := BaseURL c ++ "/projects";
                 Header := [("Content-Type", "application/json")];
                 Body := JSONBody j (DefaultOptions c) |} in
  sent (fst (CreateProject c (Some project) w)) = (sent w ++ [request])%list /\
  take (length (heap w)) (heap (fst (CreateProject c (Some project) w))) = heap w /\
  snd (CreateProject c (Some project) w)
  = Returns
      match HTTPClient c (sent w) request with
      | inr e => (zero, Some (errors_Wrap e "POST error"))
      | inl resp =>
          (default zero (fst (parseResponse c resp (Some (zero : Project)))),
           snd (snd (parseResponse c resp (Some (zero : Project)))))
      end.
Proof.
  intros Hvalid Hmarshal Hparses request. subst request.
  unfold CreateProject, post, do. go_unfold. rewrite Hvalid. simpl.
  assert (Hcell : (heap w ++ [Options_zero])%list !! length (heap w) = Some Options_zero).
  { rewrite lookup_app_r by lia. rewrite Nat.sub_diag. reflexivity. }
  unfold load. simpl. rewrite !insert_new_cell.
  rewrite ?list_lookup_insert_eq by (rewrite length_app; simpl; lia).
  rewrite ?lookup_app_r by lia. rewrite ?Nat.sub_diag. rewrite ?Hcell. simpl.
  rewrite !mergo_Merge_fields_zero.
  unfold json_Marshal_request. rewrite Hmarshal. simpl.
  rewrite NewRequest_ok by (assumption || discriminate || reflexivity). simpl.
  assert (Hfast : fastAPI c (Http.Header_Add
                    {| Method := "POST"; URL := BaseURL c ++ "/projects"; Header := [];
                       Body := JSONBody j (DefaultOptions c) |}
                    "Content-Type" "application/json")
                  = fastAPI c {| Method := "POST"; URL := BaseURL c ++ "/projects";
                                 Header := [("Content-Type", "application/json")];
                                 Body := JSONBody j (DefaultOptions c) |}) by reflexivity.
  rewrite Hfast.
  destruct (HTTPClient c _ _) as [resp|e]; simpl.
  - destruct (parseResponse c resp _) as [r' [value e]]; simpl.
    repeat split. apply take_app_length.
  - repeat split. apply take_app_length.
Qed.

Lemma CreateProject_request_witness :
  validate (Some {| Named_name := "Launch" |}) = None /\
  sent (fst (CreateProject (client_answering defaults_50 created)
                           (Some {| Named_name := "Launch" |}) (world_with options_10)))
  = [{| Method := "POST";
        URL := "https://app.asana.com/api/1.0/projects";
        Header := [("Content-Type", "application/json"); ("Asana-Fast-Api", "true")];
        Body := JSONBody (JObject [("name", JString "Launch")]) defaults_50 |}] /\
  take 1 (heap (fst (CreateProject (client_answering defaults_50 created)
                                   (Some {| Named_name := "Launch" |})
                                   (world_with options_10))))
  = [options_10] /\
  snd (CreateProject (client_answering defaults_50 created)
                     (Some {| Named_name := "Launch" |}) (world_with options_10))
  = Returns ({| ID := "12"; Name := "Launch" |}, None).
Proof.
  assert (Hvalid : validate (Some {| Named_name := "Launch" |}) = None)
    by (vm_compute; reflexivity).
  split; [exact Hvalid|].
  destruct (CreateProject_request (client_answering defaults_50 created)
              {| Named_name := "Launch" |} (JObject [("name", JString "Launch")])
              (world_with options_10) Hvalid eq_refl eq_refl)
    as (Hsent & Hheap & Hout).
  split; [exact Hsent|]. split; [exact Hheap|].
  rewrite Hout. vm_compute. reflexivity.
Defined.

Lemma do_unrooted_no_request {T D : Type} `{Payload T} `{Unmarshal D}
    (c : Client) (method path : string) (data : option T) (result : option D) (w : World) :
  rooted path = false ->
  sent (fst (do c method path data result None w)) = sent w /\
  closed (fst (do c method path data result None w)) = closed w /\
  ((exists msg, snd (do c method path data result None w) = Panics msg) \/
   (exists e, snd (do c method path data result None w) = Returns (result, Some e))).
Proof.
  intros Hpath.
  destruct (do_run c method path data result None w ltac:(discriminate))
    as [[e ->] | [(msg & _ & ->) | (m & j & Hyes & _)]]; [| |congruence].
  - simpl. eauto.
  - simpl. eauto.
Qed.

(** X6.  [CreateSection] and [InsertSection] write their path without the
    leading slash, so they never reach the HTTP client: whatever the
    project, the payload and the client, no request is issued, and the call
    panics or returns an error (of the validation or of the marshalling),
    never success. *)
Theorem section_writes_never_send :
  (forall (HS : Unmarshal AsanaSection) (HP : Payload SectionBase) p client section w,
      sent (fst (CreateSection p client section w)) = sent w /\
      ((exists msg, snd (CreateSection p client section w) = Panics msg) \/
       (exists s e, snd (CreateSection p client section w) = Returns (s, Some e)))) /\
  (forall (HP : Payload SectionInsertRequest) p client request w,
      sent (fst (InsertSection p client request w)) = sent w /\
      ((exists msg, snd (InsertSection p client request w) = Panics msg) \/
       (exists e, snd (InsertSection p client request w) = Returns (Some e)))).
Proof.
  split.
  - intros. unfold CreateSection. destruct section as [section|]; [|simpl; eauto].
    unfold post.
    match goal with
    | |- context [do ?c ?m ?path ?d ?res None] =>
        destruct (do_unrooted_no_request c m path d res w eq_refl)
          as (Hsent & _ & [[msg Hp] | [e Hr]])
    end.
    + unfold mbind, Go_bind.
      destruct (do _ _ _ _ _ _ w) as [w' o]. simpl in *. subst o. simpl. eauto.
    + rewrite (bind_returns _ _ _ _ Hr). simpl. eauto.
  - intros. unfold InsertSection. destruct request as [request|]; [|simpl; eauto].
    unfold post.
    match goal with
    | |- context [do ?c ?m ?path ?d ?res None] =>
        destruct (do_unrooted_no_request c m path d res w eq_refl)
          as (Hsent & _ & [[msg Hp] | [e Hr]])
    end.
    + unfold mbind, Go_bind.
      destruct (do _ _ _ _ _ _ w) as [w' o]. simpl in *. subst o. simpl. eauto.
    + rewrite (bind_returns _ _ _ _ Hr). simpl. eauto.
Qed.

(** ** What a returned call tells its caller *)

(** X7.  A read call that returns has stored through no pointer and closed
    nothing, and has issued one request at most.  It returns a cursor only
    without an error.  When it returns no error, or when it has changed the
    destination, it has issued exactly one [GET] request without a body,
    and the HTTP client has answered it with status 200 or 201. *)
Theorem get_returned {T D : Type} `{Payload T} `{Unmarshal D}
    (c : Client) (path : string) (data : option T) (result : option D)
    (opts : slice (option nat)) (w w' : World) (result' : option D)
    (nextPage : option NextPage) (err : option Error) :
  get c path data result opts w = (w', Returns (result', (nextPage, err))) ->
  heap w' = heap w /\ closed w' = closed w /\
  (sent w' = sent w \/ exists request, sent w' = (sent w ++ [request])%list) /\
  (is_Some err -> nextPage = None) /\
  (err = None \/ result' <> result ->
   exists request resp,
     sent w' = (sent w ++ [request])%list /\
     Method request = "GET" /\ Body request = NoBody /\
     HTTPClient c (sent w) request = inl resp /\
     (StatusCode resp = 200 \/ StatusCode resp = 201)).
Proof.
  intros Hget.
  destruct (get_run c path data result opts w)
    as [[e He] | [(msg & _ & Hp) | (url & _ & Hrun)]].
  - rewrite He in Hget. simplify_eq.
    repeat split; eauto. intros [[=] | Hneq]; congruence.
  - congruence.
  - simpl in Hrun. rewrite Hrun in Hget. clear Hrun.
    set (request := fastAPI c {| Method := "GET"; URL := BaseURL c ++ url;
                                 Header := []; Body := NoBody |}) in *.
    assert (Hmethod : Method request = "GET" /\ Body request = NoBody).
    { subst request. unfold fastAPI. destruct (FastAPI c); split; reflexivity. }
    destruct (HTTPClient c (sent w) request) as [resp|e] eqn:Hanswer.
    + destruct (parseResponse c resp result) as [r' [value [e|]]] eqn:Hparse.
      * assert (Hout : w' = sending w request /\ result' = r' /\ nextPage = None
                       /\ err = Some e) by (destruct value; simplify_eq; auto).
        destruct Hout as (-> & -> & -> & ->). clear Hget. repeat split; eauto.
        intros [[=] | Hneq]. exists request, resp. repeat split; try tauto.
        apply (parseResponse_writes_on_success c resp result). rewrite Hparse. exact Hneq.
      * destruct (parseResponse_envelope _ _ _ _ _ Hparse) as (v & d & -> & _ & Hok & _).
        simplify_eq. repeat split; eauto.
        { intros [e [=]]. }
        intros _. exists request, resp. repeat split; try tauto.
        apply status_ok_spec, Hok.
    + simplify_eq. repeat split; eauto.
      intros [[=] | Hneq]; congruence.
Qed.

Lemma get_returned_witness :
  exists w' result' nextPage,
    get (client_answering Options_zero created) "/projects/12" (None : option Empty_set)
        (Some some_project) None no_world
    = (w', Returns (result', (nextPage, None))) /\
    result' = Some {| ID := "12"; Name := "Launch" |} /\
    exists request resp,
      sent w' = ([] ++ [request])%list /\
      Method request = "GET" /\ Body request = NoBody /\
      HTTPClient (client_answering Options_zero created) [] request = inl resp /\
      (StatusCode resp = 200 \/ StatusCode resp = 201).
Proof.
  assert (Hrun : get (client_answering Options_zero created) "/projects/12"
                     (None : option Empty_set) (Some some_project) None no_world
                 = (fst (get (client_answering Options_zero created) "/projects/12"
                             (None : option Empty_set) (Some some_project) None no_world),
                    Returns (Some {| ID := "12"; Name := "Launch" |}, (None, None))))
    by (vm_compute; reflexivity).
  eexists _, _, _. split; [exact Hrun|]. split; [reflexivity|].
  destruct (get_returned _ _ _ _ _ _ _ _ _ _ Hrun) as (_ & _ & _ & _ & Hsent).
  apply Hsent. left. reflexivity.
Defined.

(** X8.  A write call that returns has closed nothing and has issued one
    request at most.  When it returns no error, or when it has changed the
    destination, it has issued exactly one request, with a JSON body, and
    the HTTP client has answered it with status 200 or 201. *)
Theorem do_returned {T D : Type} `{Payload T} `{Unmarshal D}
    (c : Client) (method path : string) (data : option T) (result : option D)
    (opts : slice (option nat)) (w w' : World) (result' : option D) (err : option Error) :
  do c method path data result opts w = (w', Returns (result', err)) ->
  closed w' = closed w /\
  (sent w' = sent w \/ exists request, sent w' = (sent w ++ [request])%list) /\
  (err = None \/ result' <> result ->
   exists request resp j options,
     sent w' = (sent w ++ [request])%list /\
     URL request = BaseURL c ++ path /\ Body request = JSONBody j options /\
     HTTPClient c (sent w) request = inl resp /\
     (StatusCode resp = 200 \/ StatusCode resp = 201)).
Proof.
  intros Hdo.
  assert (Hopts : opts <> Some []).
  { intros ->. revert Hdo. unfold do. go_unfold. discriminate. }
  destruct (do_run c method path data result opts w Hopts)
    as [[e He] | [(msg & _ & Hp) | (m & j & _ & Hrun)]].
  - rewrite He in Hdo. simplify_eq.
    unfold after_merge. destruct opts as [[|[p|] rest]|]; simpl;
      (repeat split; eauto; intros [[=] | Hneq]; congruence).
  - congruence.
  - simpl in Hrun. rewrite Hrun in Hdo. clear Hrun.
    match type of Hdo with
    | context [HTTPClient c (sent w) ?r] => set (request := r) in *
    end.
    assert (Hshape : URL request = BaseURL c ++ path /\
                     exists options, Body request = JSONBody j options).
    { subst request. unfold fastAPI. destruct (FastAPI c); split; eauto. }
    destruct Hshape as [Hurl [options Hbody]].
    assert (Hworld : closed (sending (snd (after_merge c opts w)) request) = closed w /\
                     sent (sending (snd (after_merge c opts w)) request)
                     = (sent w ++ [request])%list).
    { unfold after_merge. destruct opts as [[|[p|] rest]|]; simpl; split; reflexivity. }
    destruct Hworld as [Hclosed Hsent].
    destruct (HTTPClient c (sent w) request) as [resp|e] eqn:Hanswer.
    + simplify_eq. rewrite Hclosed, Hsent.
      split; [reflexivity|]. split; [eauto|].
      intros Hsuccess. exists request, resp, j, options. repeat split; try assumption.
      destruct (parseResponse c resp result) as [r' [value [e|]]] eqn:Hparse; simpl in *.
      * destruct Hsuccess as [[=] | Hneq].
        apply (parseResponse_writes_on_success c resp result). rewrite Hparse. exact Hneq.
      * destruct (parseResponse_envelope _ _ _ _ _ Hparse) as (v & d & _ & _ & Hok & _).
        apply status_ok_spec, Hok.
    + simplify_eq. rewrite Hclosed, Hsent.
      split; [reflexivity|]. split; [eauto|]. intros [[=] | Hneq]; congruence.
Qed.

Lemma do_returned_witness :
  exists w',
    do (client_answering defaults_50 created) "POST" "/projects"
       (Some {| Named_name := "Launch" |}) (Some some_project) None no_world
    = (w', Returns (Some {| ID := "12"; Name := "Launch" |}, None)) /\
    exists request resp j options,
      sent w' = ([] ++ [request])%list /\
      URL request = "https://app.asana.com/api/1.0" ++ "/projects" /\
      Body request = JSONBody j options /\
      HTTPClient (client_answering defaults_50 created) [] request = inl resp /\
      (StatusCode resp = 200 \/ StatusCode resp = 201).
Proof.
  assert (Hrun : do (client_answering defaults_50 created) "POST" "/projects"
                    (Some {| Named_name := "Launch" |}) (Some some_project) None no_world
                 = (fst (do (client_answering defaults_50 created) "POST" "/projects"
                            (Some {| Named_name := "Launch" |}) (Some some_project) None
                            no_world),
                    Returns (Some {| ID := "12"; Name := "Launch" |}, None)))
    by (vm_compute; reflexivity).
  eexists. split; [exact Hrun|].
  destruct (do_returned _ _ _ _ _ _ _ _ _ _ Hrun) as (_ & _ & Hsent).
  apply Hsent. left. reflexivity.
Defined.

(** ** The options of a write call *)

Lemma do_heap {T D : Type} `{Payload T} `{Unmarshal D}
    (c : Client) (method path : string) (data : option T) (result : option D)
    (opts : slice (option nat)) (w : World) :
  opts <> Some [] ->
  heap (fst (do c method path data result opts w)) = heap (snd (after_merge c opts w)).
Proof.
  intros Hopts.
  destruct (do_run c method path data result opts w Hopts)
    as [[e ->] | [(msg & _ & ->) | (m & j & _ & ->)]]; reflexivity.
Qed.

Lemma mergo_Merge_fields_idempotent (dst src : Options) :
  mergo_Merge_fields (mergo_Merge_fields dst src) src = mergo_Merge_fields dst src.
Proof.
  unfold mergo_Merge_fields. simpl.
  destruct dst as [l o f], src as [l' o' f']; simpl.
  f_equal; repeat case_decide; congruence.
Qed.

(** X9.  A write call stores through the first pointer of its options and
    through no other: every other cell of the caller keeps its value, and
    when the call is given no options, or a [nil] first pointer, every cell
    of the caller keeps its value (the defaults are merged into a new
    cell). *)
Theorem do_stores_through_first_pointer_only {T D : Type} `{Payload T} `{Unmarshal D}
    (c : Client) (method path : string) (data : option T) (result : option D)
    (opts : slice (option nat)) (w : World) :
  (forall p rest,
      opts = Some (Some p :: rest) ->
      length (heap (fst (do c method path data result opts w))) = length (heap w) /\
      forall q, q <> p ->
        heap (fst (do c method path data result opts w)) !! q = heap w !! q) /\
  (opts = None \/ (exists rest, opts = Some (None :: rest)) ->
   forall q, (q < length (heap w))%nat ->
     heap (fst (do c method path data result opts w)) !! q = heap w !! q).
Proof.
  split.
  - intros p rest ->. rewrite do_heap by discriminate. simpl.
    split; [apply length_insert|].
    intros q Hq. apply list_lookup_insert_ne. congruence.
  - intros Hnone q Hq.
    assert (Hopts : opts <> Some []) by (destruct Hnone as [-> | [rest ->]]; discriminate).
    rewrite do_heap by assumption.
    assert (Hheap : heap (snd (after_merge c opts w))
                    = <[length (heap w) :=
                          mergo_Merge_fields
                            (default Options_zero
                               ((heap w ++ [Options_zero])%list !! length (heap w)))
                            (DefaultOptions c)]> (heap w ++ [Options_zero])%list)
      by (destruct Hnone as [-> | [rest ->]]; reflexivity).
    rewrite Hheap. rewrite list_lookup_insert_ne by lia.
    apply lookup_app_l. exact Hq.
Qed.

(** X10.  The merge settles after one call: once a write call has merged
    the defaults into the caller's [Options], a further write call of the
    same client with the same pointer leaves that [Options] as it is. *)
Theorem do_merge_settles {T D T' D' : Type} `{Payload T} `{Unmarshal D}
    `{Payload T'} `{Unmarshal D'}
    (c : Client) (method path : string) (data : option T) (result : option D)
    (method' path' : string) (data' : option T') (result' : option D')
    (p : nat) (rest rest' : list (option nat)) (w : World) :
  (p < length (heap w))%nat ->
  load (fst (do c method' path' data' result' (Some (Some p :: rest'))
                (fst (do c method path data result (Some (Some p :: rest)) w)))) p
  = load (fst (do c method path data result (Some (Some p :: rest)) w)) p.
Proof.
  intros Hp.
  assert (Hlen : (p < length (heap (fst (do c method path data result
                                           (Some (Some p :: rest)) w))))%nat).
  { rewrite do_heap by discriminate. simpl. rewrite length_insert. exact Hp. }
  rewrite (do_overwrites_options c method' path' data' result' p rest' _ Hlen).
  rewrite (do_overwrites_options c method path data result p rest w Hp).
  apply mergo_Merge_fields_idempotent.
Qed.

Lemma do_merge_settles_witness :
  (0 < length (heap (world_with options_10)))%nat /\
  load (fst (do (client_answering defaults_50 created) "PUT" "/projects/12"
                (Some {| Named_name := "Relaunch" |}) (Some some_project)
                (Some [Some 0%nat])
                (fst (do (client_answering defaults_50 created) "POST" "/projects"
                         (Some {| Named_name := "Launch" |}) (Some some_project)
                         (Some [Some 0%nat]) (world_with options_10))))) 0
  = {| Limit := 10; Offset := EmptyString; Fields := ["name"; "notes"] |}.
Proof.
  assert (Hp : (0 < length (heap (world_with options_10)))%nat) by (simpl; lia).
  split; [exact Hp|].
  rewrite (do_merge_settles (client_answering defaults_50 created) "POST" "/projects"
             (Some {| Named_name := "Launch" |}) (Some some_project)
             "PUT" "/projects/12" (Some {| Named_name := "Relaunch" |}) (Some some_project)
             0%nat [] [] (world_with options_10) Hp).
  vm_compute. reflexivity.
Defined.

(** ** More on merging query parameters *)

(** X11.  Merging the same request value a second time changes nothing:
    [mergeQuery] replaces, it does not accumulate. *)
Theorem mergeQuery_idempotent {T : Type} `{QueryEncoder T} (q q' : Values) (request : T) :
  mergeQuery q request = (q', None) ->
  mergeQuery q' request = (q', None).
Proof.
  intros Hfirst.
  destruct (mergeQuery q' request) as [q'' err] eqn:Hsecond.
  assert (err = None) as ->.
  { revert Hfirst Hsecond. unfold mergeQuery.
    destruct (query_Values request) as [params [e|]]; [discriminate|]. congruence. }
  f_equal. apply map_eq. intros k.
  rewrite (mergeQuery_lookup _ _ _ k Hsecond), (mergeQuery_lookup _ _ _ k Hfirst).
  destruct (fst (query_Values request) !! k); reflexivity.
Qed.

Lemma mergeQuery_idempotent_witness :
  mergeQuery (fst (query_Values defaults_50)) options_20_x
  = (fst (mergeQuery (fst (query_Values defaults_50)) options_20_x), None) /\
  mergeQuery (fst (mergeQuery (fst (query_Values defaults_50)) options_20_x)) options_20_x
  = (fst (mergeQuery (fst (query_Values defaults_50)) options_20_x), None) /\
  Url.Encode (fst (mergeQuery (fst (query_Values defaults_50)) options_20_x))
  = "limit=20&offset=x&opt_fields=name%2Cnotes".
Proof.
  assert (Hfirst : mergeQuery (fst (query_Values defaults_50)) options_20_x
                   = (fst (mergeQuery (fst (query_Values defaults_50)) options_20_x), None))
    by (vm_compute; reflexivity).
  split; [exact Hfirst|]. split; [exact (mergeQuery_idempotent _ _ _ Hfirst)|].
  vm_compute. reflexivity.
Defined.

Lemma later_wins_nonempty (k : string) (sources : list Values)
    (earlier : option (list string)) (values : list string) :
  (forall vs, earlier = Some vs -> vs <> []) ->
  later_wins k sources earlier = Some values -> values <> [].
Proof.
  revert earlier. induction sources as [|s sources IH]; intros earlier Hearlier; simpl.
  - apply Hearlier.
  - apply IH. destruct (s !! k) as [vs|]; [|exact Hearlier].
    intros vs'. destruct vs; simpl; [discriminate|]. intros [= <-]. discriminate.
Qed.

Lemma string_length_append (a b : string) :
  String.length (a ++ b) = (String.length a + String.length b)%nat.
Proof.
  induction a as [|ch a IH]; [reflexivity|].
  rewrite append_cons. simpl. rewrite IH. reflexivity.
Qed.

Lemma join_amp_nonempty (p : string) (ps : list string) :
  p <> EmptyString -> Url.join_amp (p :: ps) <> EmptyString.
Proof.
  unfold Url.join_amp. revert p. induction ps as [|x ps IH]; intros p Hp; simpl.
  - exact Hp.
  - apply IH. intros Heq. apply (f_equal String.length) in Heq.
    rewrite !string_length_append in Heq. simpl in Heq. lia.
Qed.

(** X12.  The query mapping that a read call builds holds no key without
    a value, and its encoding is not empty when the mapping is not.  The
    URL text that the call hands to [http.NewRequest] is the base URL and
    the path when the mapping is empty; otherwise the base URL, the path, a
    question mark and the encoded mapping: the question mark that the call
    appends is always followed by a parameter. *)
Theorem get_query_has_values {T D : Type} `{Payload T} `{Unmarshal D}
    (c : Client) (path : string) (data : option T) (result : option D)
    (opts : slice (option nat)) (w : World) (q : Values) :
  get_query c data (map (fmap (load w)) (range opts)) = (q, None) ->
  (forall k values, q !! k = Some values -> values <> []) /\
  ((0 <? size q)%nat = true -> Url.Encode q <> EmptyString) /\
  (forall request,
      sent (fst (get c path data result opts w)) = (sent w ++ [request])%list ->
      URL request
      = BaseURL c ++ (if (0 <? size q)%nat then path ++ "?" ++ Url.Encode q else path)).
Proof.
  intros Hq.
  assert (Hvalues : forall k values, q !! k = Some values -> values <> []).
  { intros k values. rewrite (get_query_lookup _ _ _ _ k Hq).
    apply later_wins_nonempty. discriminate. }
  split; [exact Hvalues|]. split.
  - intros Hsize. apply Nat.ltb_lt in Hsize. unfold Url.Encode.
    pose proof (merge_sort_Permutation (fun a b => Is_true (String.leb a b))
                  (map fst (map_to_list q))) as Hperm.
    destruct (merge_sort _ (map fst (map_to_list q))) as [|k keys] eqn:Hkeys.
    { symmetry in Hperm. apply Permutation_nil_r in Hperm.
      apply fmap_nil_inv in Hperm. apply map_to_list_empty_iff in Hperm.
      subst q. rewrite map_size_empty in Hsize. lia. }
    assert (Hk : k ∈ map fst (map_to_list q)).
    { rewrite <- Hperm. apply list_elem_of_here. }
    apply list_elem_of_fmap in Hk as ([k' values] & -> & Hin). simpl.
    apply elem_of_map_to_list in Hin. rewrite Hin. simpl.
    pose proof (Hvalues _ _ Hin) as Hne. destruct values as [|v values]; [congruence|].
    simpl. apply join_amp_nonempty.
    intros Heq. apply (f_equal String.length) in Heq.
    rewrite !string_length_append in Heq. simpl in Heq. lia.
  - intros request.
    assert (Hnone : sent w <> (sent w ++ [request])%list).
    { intros Heq. apply (f_equal length) in Heq.
      rewrite length_app in Heq. simpl in Heq. lia. }
    unfold get. go_unfold. rewrite Hq. simpl.
    destruct (getURL c _) as [url|msg] eqn:Hurl; simpl; [|intros Hsent; congruence].
    assert (url = BaseURL c
                  ++ (if (0 <? size q)%nat then path ++ "?" ++ Url.Encode q else path)) as ->.
    { revert Hurl. unfold getURL.
      destruct (if (0 <? size q)%nat then path ++ "?" ++ Url.Encode q else path)
        as [|c0 rest]; [discriminate|].
      destruct (Ascii.eqb c0 "/"); [|discriminate]. congruence. }
    new_request; simpl; [intros Hsent; congruence|].
    destruct (HTTPClient c _ _) as [resp|e]; simpl.
    + destruct (parseResponse c resp result) as [r' [[value|] [e|]]]; simpl.
      all: intros Hsent; apply app_inj_tail in Hsent as [_ <-].
      all: unfold fastAPI; destruct (FastAPI c); reflexivity.
    + intros Hsent. apply app_inj_tail in Hsent as [_ <-].
      unfold fastAPI. destruct (FastAPI c); reflexivity.
Qed.

Lemma get_query_has_values_witness :
  get_query (client_answering defaults_50 created) (None : option Empty_set)
            (map (fmap (load (world_with options_10))) (range (Some [Some 0%nat; None])))
  = (fst (get_query (client_answering defaults_50 created) (None : option Empty_set)
                    [Some options_10; None]), None) /\
  exists request,
    sent (fst (get (client_answering defaults_50 created) "/projects"
                   (None : option Empty_set) (Some some_project)
                   (Some [Some 0%nat; None]) (world_with options_10)))
    = [request] /\
    URL request
    = "https://app.asana.com/api/1.0/projects?limit=10&opt_fields=name%2Cnotes".
Proof.
  assert (Hrun : get_query (client_answering defaults_50 created) (None : option Empty_set)
                   (map (fmap (load (world_with options_10)))
                        (range (Some [Some 0%nat; None])))
                 = (fst (get_query (client_answering defaults_50 created)
                                   (None : option Empty_set) [Some options_10; None]), None))
    by (vm_compute; reflexivity).
  split; [exact Hrun|].
  destruct (get_query_has_values (client_answering defaults_50 created) "/projects"
              (None : option Empty_set) (Some some_project) (Some [Some 0%nat; None])
              (world_with options_10) _ Hrun) as (_ & _ & Hurl).
  eexists. split; [vm_compute; reflexivity|].
  rewrite (Hurl _ ltac:(vm_compute; reflexivity)). vm_compute. reflexivity.
Defined.

(** ** More on fetching all pages *)

Lemma get_ok_world {T D : Type} `{Payload T} `{Unmarshal D}
    (c : Client) (path : string) (data : option T) (result : option D)
    (opts : slice (option nat)) (w w' : World) (r : option D * (option NextPage * option Error)) :
  get c path data result opts w = (w', Returns r) ->
  heap w' = heap w /\ closed w' = closed w /\
  (snd (snd r) = None -> exists request, sent w' = (sent w ++ [request])%list).
Proof.
  intros Hget.
  destruct (get_run c path data result opts w)
    as [[e He] | [(msg & _ & Hp) | (url & _ & Hrun)]].
  - rewrite He in Hget. simplify_eq. simpl. repeat split. discriminate.
  - congruence.
  - simpl in Hrun. rewrite Hrun in Hget. injection Hget as <- _.
    repeat split. eauto.
Qed.

Lemma fetch_page_ok_world (w : Workspace) (client : Client) (options : slice (option nat))
    (cursor : NextPage) (world world' : World) items next :
  fetch_page w client options cursor world = (world', Returns (items, next, None)) ->
  heap world' = (heap world ++ [{| Limit := 100; Offset := NP_Offset cursor; Fields := [] |}])%list /\
  closed world' = closed world /\
  exists request, sent world' = (sent world ++ [request])%list.
Proof.
  unfold fetch_page, Projects. go_unfold.
  match goal with
  | |- context [get ?c ?path ?d ?res ?o ?w1] =>
      destruct (get c path d res o w1) as [w1' [[r [np e]]|msg]] eqn:Hget
  end; simpl; [|discriminate].
  intros [= <- <- <- ->].
  destruct (get_ok_world _ _ _ _ _ _ _ _ Hget) as (Hheap & Hclosed & Hsent).
  simpl in *. split; [exact Hheap|]. split; [exact Hclosed|]. apply Hsent. reflexivity.
Qed.

(** X13.  Fetching all pages costs one request and one [Options] value
    for each page and nothing else: after the pages [pages] were fetched,
    the HTTP client has been handed as many more requests as there are
    pages, the heap holds as many more cells, the cells that were there
    keep their values, and nothing was closed. *)
Theorem pages_fetched_cost (w : Workspace) (client : Client) (options : slice (option nat))
    (cursor : option NextPage) (world : World) (pages : list (list (option Project)))
    (last : option NextPage) (world' : World) :
  pages_fetched w client options cursor world pages last world' ->
  length (sent world') = (length (sent world) + length pages)%nat /\
  length (heap world') = (length (heap world) + length pages)%nat /\
  (forall q, (q < length (heap world))%nat -> heap world' !! q = heap world !! q) /\
  closed world' = closed world.
Proof.
  induction 1 as [cursor world | cursor world items next world' pages last world'' Hfetch _ IH].
  - simpl. repeat split; lia.
  - destruct (fetch_page_ok_world _ _ _ _ _ _ _ _ Hfetch) as (Hheap & Hclosed & [request Hsent]).
    destruct IH as (IHsent & IHheap & IHcells & IHclosed).
    rewrite IHsent, IHheap, Hsent, Hheap, !length_app. simpl.
    split; [lia|]. split; [lia|]. split; [|congruence].
    intros q Hq. rewrite IHcells by (rewrite Hheap, length_app; simpl; lia).
    rewrite Hheap. apply lookup_app_l. exact Hq.
Qed.

Lemma pages_fetched_cost_witness :
  exists world',
    pages_fetched workspace_77 client_three_pages None (Some NextPage_zero) no_world
                  [page_1; page_2; page_3] None world' /\
    length (sent world') = 3%nat /\ length (heap world') = 3%nat.
Proof.
  eexists.
  assert (Hpages : pages_fetched workspace_77 client_three_pages None (Some NextPage_zero)
                     no_world [page_1; page_2; page_3] None
                     (fst (AllProjects 3 workspace_77 client_three_pages None no_world))).
  { eapply pages_fetched_more; [vm_compute; reflexivity|].
    eapply pages_fetched_more; [vm_compute; reflexivity|].
    eapply pages_fetched_more; [vm_compute; reflexivity|].
    vm_compute. apply pages_fetched_none. }
  split; [exact Hpages|].
  destruct (pages_fetched_cost _ _ _ _ _ _ _ _ Hpages) as (Hsent & Hheap & _).
  split; [exact Hsent|exact Hheap].
Defined.

(** X14.  The loop of [AllProjects] has no bound of its own: as long as
    every fetch returns a cursor, no number of rounds ends the call.  [Inv]
    is any property of the cursor and the world that holds at the start
    and that every fetch from a state with the property succeeds from,
    returns a cursor in, and keeps. *)
Theorem AllProjects_has_no_page_bound (w : Workspace) (client : Client)
    (options : slice (option nat)) (Inv : NextPage -> World -> Prop) (world : World) :
  Inv NextPage_zero world ->
  (forall cursor world,
      Inv cursor world ->
      exists items next world',
        fetch_page w client options cursor world = (world', Returns (items, Some next, None)) /\
        Inv next world') ->
  forall fuel, snd (AllProjects fuel w client options world) = Returns None.
Proof.
  intros Hstart Hstep fuel. unfold AllProjects.
  generalize (@nil (option Project)) as allProjects.
  revert Hstart. generalize NextPage_zero as cursor. revert world.
  induction fuel as [|fuel IH]; intros world cursor Hinv allProjects.
  - reflexivity.
  - destruct (Hstep cursor world Hinv) as (items & next & world' & Hfetch & Hnext).
    rewrite (AllProjects_loop_step _ _ _ _ _ _ _ _ _ _ _ Hfetch). apply IH, Hnext.
Qed.

Lemma get_success_path {T D : Type} `{Payload T} `{Unmarshal D}
    (c : Client) (path : string) (data : option T) (result result' : option D)
    (opts : slice (option nat)) (w : World) (q : Values) (resp : HttpResponse)
    (value : Response) :
  get_query c data (map (fmap (load w)) (range opts)) = (q, None) ->
  rooted path = true ->
  Http.parses (BaseURL c ++ (if (0 <? size q)%nat then path ++ "?" ++ Url.Encode q else path))
  = true ->
  (forall request, HTTPClient c (sent w) request = inl resp) ->
  parseResponse c resp result = (result', (Some value, None)) ->
  exists request,
    get c path data result opts w
    = (sending w request, Returns (result', (Resp_NextPage value, None))).
Proof.
  intros Hq Hrooted Hparses Hanswer Hparse. unfold get. go_unfold. rewrite Hq. simpl.
  assert (Hrooted' : rooted (if (0 <? size q)%nat then path ++ "?" ++ Url.Encode q else path)
                     = true).
  { destruct (0 <? size q)%nat; [|exact Hrooted].
    destruct path as [|c0 rest]; [discriminate|exact Hrooted]. }
  rewrite (getURL_rooted c _ Hrooted'). simpl.
  rewrite NewRequest_ok by (assumption || discriminate || reflexivity). simpl.
  rewrite Hanswer. simpl. rewrite Hparse. eexists. reflexivity.
Qed.

Lemma load_new (w : World) (o : Options) :
  load {| heap := (heap w ++ [o])%list; sent := sent w; closed := closed w |}
       (length (heap w)) = o.
Proof.
  unfold load. simpl. rewrite lookup_app_r by lia.
  rewrite Nat.sub_diag. reflexivity.
Qed.

(** The client that always answers with a cursor: every fetch from the
    offsets it can be asked for succeeds. *)
Lemma fetch_page_endless (offset path uri : string) (world : World) :
  offset = EmptyString \/ offset = "a" ->
  exists world',
    fetch_page workspace_77 client_endless None
               {| NP_Offset := offset; NP_Path := path; NP_URI := uri |} world
    = (world',
       Returns ([Some {| ID := "1"; Name := "one" |}],
                Some {| NP_Offset := "a"; NP_Path := "/p"; NP_URI := "u" |}, None)).
Proof.
  intros Hoffset. unfold fetch_page, Projects. go_unfold.
  set (page := {| Limit := 100; Offset := offset; Fields := [] |}).
  set (world1 := {| heap := (heap world ++ [page])%list; sent := sent world;
                    closed := closed world |}).
  assert (Hopts : map (fmap (load world1)) (range (Some [Some (length (heap world))]))
                  = [Some page]).
  { simpl. subst world1. rewrite load_new. reflexivity. }
  assert (Hq : get_query client_endless (None : option Empty_set)
                 (map (fmap (load world1)) (range (Some [Some (length (heap world))])))
               = (fst (get_query client_endless (None : option Empty_set) [Some page]), None)).
  { rewrite Hopts. subst page. destruct Hoffset as [-> | ->]; vm_compute; reflexivity. }
  assert (Hparses : Http.parses
            (BaseURL client_endless
             ++ (if (0 <? size (fst (get_query client_endless (None : option Empty_set)
                                       [Some page])))%nat
                 then ("/workspaces/" ++ "77" ++ "/projects") ++ "?"
                      ++ Url.Encode (fst (get_query client_endless (None : option Empty_set)
                                            [Some page]))
                 else "/workspaces/" ++ "77" ++ "/projects")) = true).
  { subst page. destruct Hoffset as [-> | ->]; vm_compute; reflexivity. }
  destruct (get_success_path client_endless ("/workspaces/" ++ "77" ++ "/projects")
              (None : option Empty_set) (Some ([] : list (option Project)))
              (Some [Some {| ID := "1"; Name := "one" |}])
              (Some [Some (length (heap world))]) world1 _
              (respond 200 "{'data':[{'gid':'1','name':'one'}],'next_page':{'offset':'a','path':'/p','uri':'u'}}")
              {| Data := Some (JArray [JObject [("gid", JString "1"); ("name", JString "one")]]);
                 Resp_NextPage := Some {| NP_Offset := "a"; NP_Path := "/p"; NP_URI := "u" |};
                 Resp_Errors := [] |}
              Hq eq_refl Hparses) as [request Hget].
  - intros request. reflexivity.
  - vm_compute. reflexivity.
  - change (Workspace_ID workspace_77) with "77". fold page. fold world1.
    rewrite Hget. simpl. eauto.
Qed.

Lemma AllProjects_has_no_page_bound_witness :
  (NP_Offset NextPage_zero = EmptyString \/ NP_Offset NextPage_zero = "a") /\
  snd (AllProjects 1000 workspace_77 client_endless None no_world) = Returns None.
Proof.
  assert (Hstart : NP_Offset NextPage_zero = EmptyString \/ NP_Offset NextPage_zero = "a")
    by (left; reflexivity).
  split; [exact Hstart|].
  apply (AllProjects_has_no_page_bound workspace_77 client_endless None
           (fun cursor _ => NP_Offset cursor = EmptyString \/ NP_Offset cursor = "a")
           no_world Hstart).
  intros [offset path uri] world Hinv. simpl in Hinv.
  destruct (fetch_page_endless offset path uri world Hinv) as [world' Hfetch].
  eexists _, _, world'. split; [exact Hfetch|]. right. reflexivity.
Defined.

(** ** The fast API header *)

Lemma fastAPI_header (c : Client) (request : Request) :
  ("Asana-Fast-Api", "true") ∉ Header request ->
  (("Asana-Fast-Api", "true") ∈ Header (fastAPI c request) <-> FastAPI c = true).
Proof.
  intros Hnot. unfold fastAPI. destruct (FastAPI c); simpl.
  - split; [reflexivity|]. intros _. apply elem_of_app. right. apply list_elem_of_singleton. reflexivity.
  - split; [intros Hin; contradiction|discriminate].
Qed.

Lemma last_request (requests : list Request) (request request' : Request) :
  (requests ++ [request])%list = (requests ++ [request'])%list -> request = request'.
Proof. intros Heq. apply app_inj_tail in Heq as [_ Heq]. exact Heq. Qed.

Lemma not_sent (requests : list Request) (request : Request) :
  requests <> (requests ++ [request])%list.
Proof.
  intros Heq. apply (f_equal length) in Heq. rewrite length_app in Heq. simpl in Heq. lia.
Qed.

Lemma postMultipart_sent {D : Type} `{Unmarshal D}
    (c : Client) (boundary path : string) (result : option D) (field : string)
    (r : ReadCloser) (filename contentType : string) (w : World) :
  sent (fst (postMultipart c boundary path result field r filename contentType w)) = sent w \/
  exists contentType' body,
    sent (fst (postMultipart c boundary path result field r filename contentType w))
    = (sent w ++ [fastAPI c {| Method := "POST"; URL := BaseURL c ++ path;
                               Header := [("Content-Type", contentType')];
                               Body := body |}])%list.
Proof.
  unfold postMultipart.
  destruct (CreatePart_Close_writer boundary field filename contentType)
    as (pw & pw' & -> & _ & -> & _ & _).
  go_unfold.
  destruct (rooted path) eqn:Hpath;
    [rewrite (getURL_rooted c path Hpath)
    |destruct (getURL_unrooted c path Hpath) as [msg ->]; simpl; left; reflexivity].
  simpl.
  match goal with
  | |- context [Http.NewRequest ?m ?u ?b] =>
      destruct (NewRequest_cases m u b) as [[e He] | [m' Hm]]
  end.
  - rewrite He. simpl. left. reflexivity.
  - assert (m' = "POST") as ->.
    { unfold Http.NewRequest in Hm. simpl in Hm.
      destruct (Http.parses _); [|discriminate]. congruence. }
    rewrite Hm. simpl. right. eexists _, _.
    destruct (HTTPClient c _ _) as [resp|e]; simpl; [|reflexivity].
    destruct (parseResponse c resp result) as [r' [value e]]; reflexivity.
Qed.

(** X15.  Every request that a read call, a write call or an upload hands
    to the HTTP client carries the header [Asana-Fast-Api: true] when the
    client has the fast API switched on, and does not carry it when the
    client has it switched off. *)
Theorem fast_api_header_follows_switch {T D : Type} `{Payload T} `{Unmarshal D}
    (c : Client) (method path : string) (data : option T) (result : option D)
    (opts : slice (option nat)) (w : World) :
  (forall request,
      sent (fst (get c path data result opts w)) = (sent w ++ [request])%list ->
      (("Asana-Fast-Api", "true") ∈ Header request <-> FastAPI c = true)) /\
  (forall request,
      sent (fst (do c method path data result opts w)) = (sent w ++ [request])%list ->
      (("Asana-Fast-Api", "true") ∈ Header request <-> FastAPI c = true)) /\
  (forall boundary field r filename contentType request,
      sent (fst (postMultipart c boundary path result field r filename contentType w))
      = (sent w ++ [request])%list ->
      (("Asana-Fast-Api", "true") ∈ Header request <-> FastAPI c = true)).
Proof.
  split; [|split].
  - intros request.
    destruct (get_run c path data result opts w)
      as [[e ->] | [(msg & _ & ->) | (url & _ & ->)]]; simpl.
    + intros Hsent. destruct (not_sent _ _ Hsent).
    + intros Hsent. destruct (not_sent _ _ Hsent).
    + intros Hsent. apply last_request in Hsent as <-.
      apply fastAPI_header. simpl. apply not_elem_of_nil.
  - intros request.
    destruct (decide (opts = Some [])) as [->|Hopts].
    { unfold do. go_unfold. intros Hsent. destruct (not_sent _ _ Hsent). }
    assert (Hsame : sent (snd (after_merge c opts w)) = sent w)
      by (unfold after_merge; destruct opts as [[|[p|] rest]|]; reflexivity).
    destruct (do_run c method path data result opts w Hopts)
      as [[e ->] | [(msg & _ & ->) | (m & j & _ & ->)]]; simpl; rewrite Hsame.
    + intros Hsent. destruct (not_sent _ _ Hsent).
    + intros Hsent. destruct (not_sent _ _ Hsent).
    + intros Hsent. apply last_request in Hsent as <-.
      apply fastAPI_header. simpl. intros Hin.
      apply list_elem_of_singleton in Hin. discriminate.
  - intros boundary field r filename contentType request.
    destruct (postMultipart_sent c boundary path result field r filename contentType w)
      as [-> | (ct & body & ->)].
    + intros Hsent. destruct (not_sent _ _ Hsent).
    + intros Hsent. apply last_request in Hsent as <-.
      apply fastAPI_header. simpl. intros Hin.
      apply list_elem_of_singleton in Hin. discriminate.
Qed.

(** ** Calls without options *)

(** X16.  A write call that is given no options, or a [nil] pointer for
    the first, sends the client defaults as they are: the options in the
    body of its request are the [DefaultOptions] of the client. *)
Theorem do_without_options_sends_defaults {T D : Type} `{Payload T} `{Unmarshal D}
    (c : Client) (method path : string) (data : option T) (result : option D)
    (opts : slice (option nat)) (w : World) (request : Request) :
  opts = None \/ (exists rest, opts = Some (None :: rest)) ->
  sent (fst (do c method path data result opts w)) = (sent w ++ [request])%list ->
  exists j, Body request = JSONBody j (DefaultOptions c).
Proof.
  intros Hnone.
  assert (Hopts : opts <> Some []) by (destruct Hnone as [-> | [rest ->]]; discriminate).
  assert (Hmerged : sent (snd (after_merge c opts w)) = sent w /\
                    load (snd (after_merge c opts w)) (fst (after_merge c opts w))
                    = DefaultOptions c).
  { assert (Hcell : load {| heap := <[length (heap w) :=
                                        mergo_Merge_fields
                                          (default Options_zero
                                             ((heap w ++ [Options_zero])%list
                                              !! length (heap w)))
                                          (DefaultOptions c)]>
                                      (heap w ++ [Options_zero])%list;
                            sent := sent w; closed := closed w |} (length (heap w))
                    = DefaultOptions c).
    { unfold load. simpl.
      rewrite list_lookup_insert_eq by (rewrite length_app; simpl; lia). simpl.
      rewrite lookup_app_r by lia. rewrite Nat.sub_diag. simpl.
      apply mergo_Merge_fields_zero. }
    destruct Hnone as [-> | [rest ->]]; (split; [reflexivity|exact Hcell]). }
  destruct Hmerged as [Hsame Hload].
  destruct (do_run c method path data result opts w Hopts)
    as [[e ->] | [(msg & _ & ->) | (m & j & _ & ->)]]; simpl; rewrite Hsame.
  - intros Hsent. destruct (not_sent _ _ Hsent).
  - intros Hsent. destruct (not_sent _ _ Hsent).
  - intros Hsent. apply last_request in Hsent as <-. exists j.
    rewrite Hload. unfold fastAPI. destruct (FastAPI c); reflexivity.
Qed.

Lemma do_without_options_sends_defaults_witness :
  exists request,
    sent (fst (do (client_answering defaults_50 created) "POST" "/projects"
                  (Some {| Named_name := "Launch" |}) (Some some_project) None no_world))
    = ([] ++ [request])%list /\
    exists j, Body request = JSONBody j defaults_50.
Proof.
  eexists. split; [vm_compute; reflexivity|].
  apply (do_without_options_sends_defaults (client_answering defaults_50 created)
           "POST" "/projects" (Some {| Named_name := "Launch" |}) (Some some_project)
           None no_world).
  - left. reflexivity.
  - vm_compute. reflexivity.
Defined.

(** ** A new client *)

Lemma unreserved_plain (s : string) : unreserved s = true -> plain s = true.
Proof.
  induction s as [|ch s IH]; simpl; [reflexivity|].
  intros Hs. apply andb_true_iff in Hs as [Hch Hs]. rewrite (IH Hs), andb_true_r.
  revert Hch. destruct ch as [[] [] [] [] [] [] [] []]; vm_compute; congruence.
Qed.

Lemma plain_app (a b : string) : plain a = true -> plain b = true -> plain (a ++ b) = true.
Proof.
  intros Ha Hb. induction a as [|ch a IH]; [exact Hb|].
  rewrite append_cons. simpl in *.
  apply andb_true_iff in Ha as [Hch Ha]. rewrite Hch, (IH Ha). reflexivity.
Qed.

Lemma escapes_ok_other (ch : ascii) (s : string) :
  Ascii.eqb ch "%" = false -> Http.escapes_ok (String ch s) = Http.escapes_ok s.
Proof. destruct ch as [[] [] [] [] [] [] [] []]; try reflexivity; discriminate. Qed.

Lemma plain_parts (s : string) :
  plain s = true ->
  Http.has_ctl s = false /\ Http.escapes_ok s = true /\
  Http.cut "#" s = (s, EmptyString) /\ Http.cut "?" s = (s, EmptyString).
Proof.
  induction s as [|ch s IH]; [repeat split|].
  intros Hs. simpl in Hs.
  repeat (apply andb_true_iff in Hs as [Hs ?]).
  apply negb_true_iff in Hs.
  repeat match goal with Hn : negb _ = true |- _ => apply negb_true_iff in Hn end.
  destruct IH as (Hctl & Hesc & Hfrag & Hquery); [assumption|].
  repeat split.
  - simpl. rewrite Hs, Hctl. reflexivity.
  - rewrite escapes_ok_other by assumption. exact Hesc.
  - simpl. rewrite Hfrag.
    match goal with Hn : Ascii.eqb ch "#" = false |- _ => rewrite Hn end. reflexivity.
  - simpl. rewrite Hquery.
    match goal with Hn : Ascii.eqb ch "?" = false |- _ => rewrite Hn end. reflexivity.
Qed.

Lemma plain_parses (s : string) : plain s = true -> Http.parses s = true.
Proof.
  intros Hs. destruct (plain_parts s Hs) as (Hctl & Hesc & Hfrag & Hquery).
  unfold Http.parses. rewrite Hfrag, Hquery, Hctl, Hesc. reflexivity.
Qed.

(** X17.  On a client made by [NewClient] from an HTTP client, fetching a
    project whose identifier holds letters, digits and [-_.~] only, without
    options, hands the HTTP client exactly one request: a [GET] of the
    default base URL followed by [/projects/] and the identifier, with the
    fast API header and without a body.  That URL holds no question mark,
    so no query, and nothing that [url.Parse] would write differently. *)
Theorem Fetch_on_new_client (httpClient : list Request -> Request -> HttpResponse + Error)
    (p : Project) (w : World) :
  unreserved (ID p) = true ->
  sent (fst (Fetch (Some p) (NewClient httpClient) None w))
  = (sent w ++ [{| Method := "GET";
                   URL := "https://app.asana.com/api/1.0" ++ "/projects/" ++ ID p;
                   Header := [("Asana-Fast-Api", "true")];
                   Body := NoBody |}])%list /\
  Http.cut "?" ("https://app.asana.com/api/1.0" ++ "/projects/" ++ ID p)
  = ("https://app.asana.com/api/1.0" ++ "/projects/" ++ ID p, EmptyString) /\
  plain ("https://app.asana.com/api/1.0" ++ "/projects/" ++ ID p) = true.
Proof.
  intros Hid.
  assert (Hplain : plain ("https://app.asana.com/api/1.0" ++ "/projects/" ++ ID p) = true).
  { rewrite <- append_assoc. apply plain_app; [reflexivity|].
    apply unreserved_plain. exact Hid. }
  split; [|split; [apply plain_parts; exact Hplain|exact Hplain]].
  unfold Fetch, get. go_unfold.
  rewrite map_size_empty. simpl.
  rewrite NewRequest_ok by (apply plain_parses; exact Hplain) || discriminate || reflexivity.
  simpl.
  destruct (httpClient _ _) as [resp|e]; simpl; [|reflexivity].
  destruct (parseResponse _ resp (Some p)) as [r' [[value|] [e|]]]; reflexivity.
Qed.

Lemma Fetch_on_new_client_witness :
  unreserved (ID some_project) = true /\
  sent (fst (Fetch (Some some_project)
               (NewClient (fun _ _ => inl (respond 200 "{'data':{'gid':'7','name':'after'}}")))
               None no_world))
  = [{| Method := "GET"; URL := "https://app.asana.com/api/1.0/projects/7";
        Header := [("Asana-Fast-Api", "true")]; Body := NoBody |}].
Proof.
  split; [reflexivity|].
  exact (proj1 (Fetch_on_new_client
                  (fun _ _ => inl (respond 200 "{'data':{'gid':'7','name':'after'}}"))
                  some_project no_world eq_refl)).
Defined.

(** A request to move a section, as the code issues it: the call panics on
    its path and the HTTP client sees nothing. *)
Example InsertSection_panics :
  InsertSection some_project (client_answering Options_zero created) (Some insert_request)
                no_world
  = ({| heap := [Options_zero]; sent := []; closed := [] |}, Panics "Invalid API path").
Proof. vm_compute. reflexivity. Qed.
